(** * sharepointlib: response schemas and the operation dispatcher

    A shallow embedding of [sharepointlib/models.py] (the pydantic v1 response
    schemas) and of the response handling of [sharepointlib/sharepoint.py].

    Python values live in one universe, [pyobj]: what [response.json()]
    returns and what a validated record holds are values of the same type,
    so that "the record holds the raw value" is plain equality.  JSON numbers
    are Python ints here; responses with floating-point numbers are outside
    the model.  Dictionaries are association lists in insertion order, read
    with first-match lookup, as Python dicts keep insertion order and the
    order of the fields decides what a validator can see.

    The schemas run on pydantic v1 ([parse_obj_as], [__fields__],
    [field.field_info]).  Its field loop, its treatment of aliases, defaults,
    [None], pre-validators and exclusion are written out below.  Three
    conversions that pydantic leaves to the Python runtime are taken as
    parameters ([Runtime]): parsing a date-time, [int(str)] and [dict(v)] on
    a value that is not a dict.

    The remote service is the other parameter: an operation is a function of
    the reply (or replies) the session gives to the request it sends.  URLs,
    headers, logging and the files written to disk are not modelled. *)

From Stdlib Require Import String Ascii List ZArith Lia Bool DecimalString.
Import ListNotations.
Open Scope string_scope.
Open Scope list_scope.
Open Scope Z_scope.

Set Implicit Arguments.

(* ================================================================== *)
(** ** Strings *)

(** [c in s] for a one-character [c]. *)
Fixpoint contains_char (c : ascii) (s : string) : bool :=
  match s with
  | EmptyString => false
  | String a s' => Ascii.eqb a c || contains_char c s'
  end.

(** [s.split(sep)] for a one-character separator: never the empty list. *)
Fixpoint split (sep : ascii) (s : string) : list string :=
  match s with
  | EmptyString => [EmptyString]
  | String a s' =>
      if Ascii.eqb a sep then EmptyString :: split sep s'
      else match split sep s' with
           | h :: t => String a h :: t
           | [] => [String a EmptyString]
           end
  end.

(** [needle in hay] on two strings: substring test. *)
Fixpoint substring_of (needle hay : string) : bool :=
  String.prefix needle hay ||
  match hay with
  | EmptyString => false
  | String _ hay' => substring_of needle hay'
  end.

(** [s.lower()] on the ASCII letters. *)
Definition lower_ascii (a : ascii) : ascii :=
  let n := nat_of_ascii a in
  if (Nat.leb 65 n && Nat.leb n 90)%bool then ascii_of_nat (n + 32) else a.

Fixpoint lower (s : string) : string :=
  match s with
  | EmptyString => EmptyString
  | String a s' => String (lower_ascii a) (lower s')
  end.

(** [sep.join(l)]. *)
Fixpoint join (sep : string) (l : list string) : string :=
  match l with
  | [] => EmptyString
  | [x] => x
  | x :: rest => (x ++ sep ++ join sep rest)%string
  end.

(** [str(n)] for a Python int. *)
Definition str_of_int (n : Z) : string := NilZero.string_of_int (Z.to_int n).

Definition mem (k : string) (l : list string) : bool :=
  existsb (String.eqb k) l.

(* ================================================================== *)
(** ** Python values *)

(** [datetime.datetime]: the fields of the constructor, the offset of the
    time zone in minutes ([None] for a naive value). *)
Record datetime := {
  year : Z; month : Z; day : Z;
  hour : Z; minute : Z; second : Z; microsecond : Z;
  utcoffset : option Z
}.

#[warnings="-register-all"]
Inductive pyobj : Type :=
| PyNone
| PyBool (b : bool)
| PyInt (n : Z)
| PyStr (s : string)
| PyList (items : list pyobj)
| PyDict (items : list (string * pyobj))
| PyDatetime (t : datetime).

Abbreviation pydict := (list (string * pyobj)).

(** [v is None] *)
Definition is_none (v : pyobj) : bool :=
  match v with PyNone => true | _ => false end.

(** [bool(v)] *)
Definition truthy (v : pyobj) : bool :=
  match v with
  | PyNone => false
  | PyBool b => b
  | PyInt n => negb (n =? 0)
  | PyStr s => negb (String.eqb s EmptyString)
  | PyList l => match l with [] => false | _ => true end
  | PyDict d => match d with [] => false | _ => true end
  | PyDatetime _ => true
  end.

(** Exceptions.  A pydantic [ValidationError] carries its error list: one
    entry per failed field, a location and the kind of error. *)
Inductive loc_item := Loc (name : string) | Idx (i : nat).

Inductive error_type :=
| MissingError            (* value_error.missing *)
| NoneIsNotAllowedError   (* type_error.none.not_allowed *)
| StrError                (* type_error.str *)
| IntegerError            (* type_error.integer *)
| BoolError               (* type_error.bool *)
| DictError               (* type_error.dict *)
| DateTimeError           (* value_error.datetime, or the parser's TypeError *)
| ListError               (* type_error.list *)
| ValidatorTypeError      (* a TypeError raised inside a validator *)
| ValidatorValueError.    (* a ValueError raised inside a validator *)

Definition ErrorWrapper : Type := list loc_item * error_type.

Inductive exn :=
| ValidationError (errors : list ErrorWrapper)
| KeyError (key : string)
| TypeError
| AttributeError
| JSONDecodeError.

Inductive result (A : Type) : Type :=
| Return (a : A)
| Raise (e : exn).
Arguments Raise {A} e.

Definition bind {A B} (m : result A) (k : A -> result B) : result B :=
  match m with
  | Return a => k a
  | Raise e => Raise e
  end.

Notation "x <- m ;; k" := (bind m (fun x => k))
  (at level 61, m at next level, right associativity).

(* ------------------------------------------------------------------ *)
(** *** dict operations *)

Fixpoint lookup (k : string) (d : pydict) : option pyobj :=
  match d with
  | [] => None
  | (k', v) :: d' => if String.eqb k k' then Some v else lookup k d'
  end.

(** [k in d] *)
Definition dict_contains (k : string) (d : pydict) : bool :=
  match lookup k d with Some _ => true | None => false end.

(** [d.get(k)] *)
Definition get (k : string) (d : pydict) : pyobj :=
  match lookup k d with Some v => v | None => PyNone end.

(** [d[k]] *)
Definition getitem (k : string) (d : pydict) : result pyobj :=
  match lookup k d with Some v => Return v | None => Raise (KeyError k) end.

(** [d[k] = v]: the key keeps its place when it is there already. *)
Fixpoint setitem (k : string) (v : pyobj) (d : pydict) : pydict :=
  match d with
  | [] => [(k, v)]
  | (k', v') :: d' =>
      if String.eqb k k' then (k, v) :: d' else (k', v') :: setitem k v d'
  end.

(** [k in o] for a string [k] and any object [o]. *)
Definition py_contains (k : string) (o : pyobj) : result bool :=
  match o with
  | PyDict d => Return (dict_contains k d)
  | PyList l =>
      Return (existsb (fun x => match x with
                                | PyStr s => String.eqb s k
                                | _ => false
                                end) l)
  | PyStr s => Return (substring_of k s)
  | PyNone | PyBool _ | PyInt _ | PyDatetime _ => Raise TypeError
  end.

(** [o[k]] for a string [k] and any object [o]. *)
Definition py_getitem (k : string) (o : pyobj) : result pyobj :=
  match o with
  | PyDict d => getitem k d
  | _ => Raise TypeError
  end.

(* ================================================================== *)
(** ** pydantic v1: type validators *)

(** What pydantic hands on to the Python runtime.  [parse_datetime v] is
    pydantic's parser of the same name on a value that is neither [None] nor
    a [datetime]; [int_of_str s] is [int(s)]; [dict_of v] is [dict(v)] on a
    value that is not a dict.  [None] stands for the exception the caller
    turns into a validation error. *)
Record Runtime := {
  parse_datetime : pyobj -> option datetime;
  int_of_str : string -> option Z;
  dict_of : pyobj -> option pydict
}.

(** The declared type of a field. *)
Inductive type_ := T_str | T_int | T_bool | T_dict | T_datetime.

(** [str_validator]: a str is kept, a number is rendered with [str(v)]
    ([bool] is a subclass of [int]), anything else is an error. *)
Definition str_validator (v : pyobj) : option string :=
  match v with
  | PyStr s => Some s
  | PyInt n => Some (str_of_int n)
  | PyBool true => Some "True"
  | PyBool false => Some "False"
  | _ => None
  end.

(** [bool_validator]: [True], [False], 0, 1 and a few words. *)
Definition BOOL_FALSE : list string := ["0"; "off"; "f"; "false"; "n"; "no"].
Definition BOOL_TRUE : list string := ["1"; "on"; "t"; "true"; "y"; "yes"].

Definition bool_validator (v : pyobj) : option bool :=
  match v with
  | PyBool b => Some b
  | PyInt 1 => Some true
  | PyInt 0 => Some false
  | PyStr s =>
      if mem (lower s) BOOL_TRUE then Some true
      else if mem (lower s) BOOL_FALSE then Some false
      else None
  | _ => None
  end.

Section Validation.

Variable rt : Runtime.

(** [int_validator]: an int that is not a bool is kept, the rest goes
    through [int(v)]. *)
Definition int_validator (v : pyobj) : option Z :=
  match v with
  | PyInt n => Some n
  | PyBool true => Some 1
  | PyBool false => Some 0
  | PyStr s => int_of_str rt s
  | _ => None
  end.

(** [dict_validator]: a dict is kept as it is, the rest goes through
    [dict(v)]. *)
Definition dict_validator (v : pyobj) : option pydict :=
  match v with
  | PyDict d => Some d
  | _ => dict_of rt v
  end.

(** The validator pydantic finds for a declared type, on a value that is
    not [None]. *)
Definition type_validator (t : type_) (v : pyobj) : pyobj + error_type :=
  match t with
  | T_str =>
      match str_validator v with Some s => inl (PyStr s) | None => inr StrError end
  | T_int =>
      match int_validator v with Some n => inl (PyInt n) | None => inr IntegerError end
  | T_bool =>
      match bool_validator v with Some b => inl (PyBool b) | None => inr BoolError end
  | T_dict =>
      match dict_validator v with Some d => inl (PyDict d) | None => inr DictError end
  | T_datetime =>
      match v with
      | PyDatetime t => inl v
      | _ => match parse_datetime rt v with
             | Some t => inl (PyDatetime t)
             | None => inr DateTimeError
             end
      end
  end.

(* ================================================================== *)
(** ** pydantic v1: fields and models *)

(** A field of a model.  [field_info_alias] is the [alias=] of [Field(...)],
    [None] for a field declared without one.  A field is required when its
    [Field(...)] has no default; every default in [models.py] is [None].
    [pre_validator] is the [@validator(name, pre=True, always=True)] of the
    field, called as [validator(cls, v, values)]. *)
Record ModelField := {
  name : string;
  field_info_alias : option string;
  ftype : type_;
  required : bool;
  pre_validator : option (pyobj -> pydict -> result pyobj)
}.

(** [field.alias]: the alias, or the name when there is none. *)
Definition alias (f : ModelField) : string :=
  match field_info_alias f with Some a => a | None => name f end.

(** A field that is not required has default [None] and so admits [None]. *)
Definition allow_none (f : ModelField) : bool := negb (required f).

Definition validate_always (f : ModelField) : bool :=
  match pre_validator f with Some _ => true | None => false end.

(** [ModelField.validate]: the pre-validator first (a [ValueError],
    [TypeError] or [AssertionError] it raises becomes the field's error, any
    other exception propagates), then the [None] check, then the validator
    of the declared type. *)
Definition after_pre (f : ModelField) (v : pyobj) : pyobj + error_type :=
  if is_none v then
    if allow_none f then inl PyNone else inr NoneIsNotAllowedError
  else type_validator (ftype f) v.

Definition validate (f : ModelField) (v : pyobj) (values : pydict)
  : result (pyobj + error_type) :=
  match pre_validator f with
  | None => Return (after_pre f v)
  | Some validator =>
      match validator v values with
      | Return v' => Return (after_pre f v')
      | Raise TypeError => Return (inr ValidatorTypeError)
      | Raise (ValidationError _) | Raise JSONDecodeError =>
          Return (inr ValidatorValueError)
      | Raise e => Raise e
      end
  end.

(** One turn of the field loop of [validate_model]: the field is read from
    the input under its alias.  A missing required field is an error; a
    missing optional field takes its default [None], which is validated only
    when the field has an [always=True] validator. *)
Definition field_outcome (f : ModelField) (input_data : pydict) (values : pydict)
  : result (pyobj + error_type) :=
  match lookup (alias f) input_data with
  | None =>
      if required f then Return (inr MissingError)
      else if validate_always f then validate f PyNone values
      else Return (inl PyNone)
  | Some value => validate f value values
  end.

(** The field loop of [validate_model]: fields in declaration order;
    [values] holds the fields validated so far and is what a validator
    sees; a field that fails adds its error and is left out of [values]. *)
Fixpoint validate_fields (fs : list ModelField) (input_data : pydict)
    (values : pydict) (errors : list ErrorWrapper)
  : result (pydict * list ErrorWrapper) :=
  match fs with
  | [] => Return (values, errors)
  | f :: fs' =>
      r <- field_outcome f input_data values ;;
      match r with
      | inl v_ =>
          validate_fields fs' input_data (values ++ [(name f, v_)]) errors
      | inr e =>
          validate_fields fs' input_data values
            (errors ++ [([Loc (alias f)], e)])
      end
  end.

(** A model class: its fields in declaration order and the [exclude] set its
    [dict] override installs (empty for a class without an override). *)
Record Model := {
  fields : list ModelField;
  exclude : list string
}.

(** [BaseModel.__init__], the call [model( ** input_data)] with the keyword
    arguments unpacked from [input_data]: the validated values, or
    [ValidationError]. *)
Definition init (model : Model) (input_data : pydict) : result pydict :=
  r <- validate_fields (fields model) input_data [] [] ;;
  match r with
  | (values, []) => Return values
  | (_, errors) => Raise (ValidationError errors)
  end.

(** [instance.dict()]: the fields in order, without the excluded ones. *)
Definition dict (model : Model) (values : pydict) : pydict :=
  filter (fun kv => negb (mem (fst kv) (exclude model))) values.

End Validation.

(* ================================================================== *)
(** ** models.py *)

Module models.

(** [name: t = Field(alias=a)]: required. *)
Definition Field (n : string) (t : type_) (a : string) : ModelField :=
  {| name := n; field_info_alias := Some a; ftype := t; required := true;
     pre_validator := None |}.

(** [name: t = Field(None, alias=a)]: optional, default [None]. *)
Definition Field_None (n : string) (t : type_) (a : string) : ModelField :=
  {| name := n; field_info_alias := Some a; ftype := t; required := false;
     pre_validator := None |}.

(** [name: str | None = None], with the validator declared for it, if any. *)
Definition Optional_str (n : string)
    (validator : option (pyobj -> pydict -> result pyobj)) : ModelField :=
  {| name := n; field_info_alias := None; ftype := T_str; required := false;
     pre_validator := validator |}.

Definition GetSiteInfo : Model :=
  {| fields :=
       [ Field "id" T_str "id";
         Field_None "name" T_str "name";
         Field_None "display_name" T_str "displayName";
         Field_None "web_url" T_str "webUrl";
         Field "created_date_time" T_datetime "createdDateTime";
         Field_None "last_modified_date_time" T_datetime "lastModifiedDateTime" ];
     exclude := [] |}.

Definition GetHostNameInfo : Model :=
  {| fields :=
       [ Field "id" T_str "id";
         Field_None "name" T_str "name";
         Field_None "display_name" T_str "displayName";
         Field_None "description" T_str "description";
         Field_None "web_url" T_str "webUrl";
         Field_None "site_collection" T_dict "siteCollection";
         Field "created_date_time" T_datetime "createdDateTime";
         Field_None "last_modified_date_time" T_datetime "lastModifiedDateTime" ];
     exclude := [] |}.

Definition ListDrives : Model :=
  {| fields :=
       [ Field "id" T_str "id";
         Field_None "name" T_str "name";
         Field_None "description" T_str "description";
         Field_None "web_url" T_str "webUrl";
         Field_None "drive_type" T_str "driveType";
         Field "created_date_time" T_datetime "createdDateTime";
         Field_None "last_modified_date_time" T_datetime "lastModifiedDateTime" ];
     exclude := [] |}.

Definition GetDirInfo : Model :=
  {| fields :=
       [ Field "id" T_str "id";
         Field_None "name" T_str "name";
         Field_None "web_url" T_str "webUrl";
         Field_None "size" T_int "size";
         Field "created_date_time" T_datetime "createdDateTime";
         Field_None "last_modified_date_time" T_datetime "lastModifiedDateTime" ];
     exclude := [] |}.

(** [ListDir.set_extension(cls, v, values)] *)
Definition ListDir_set_extension (v : pyobj) (values : pydict) : result pyobj :=
  if is_none (get "folder" values) then
    name <- getitem "name" values ;;
    has_dot <- py_contains "." name ;;
    if has_dot : bool then
      match name with
      | PyStr s => Return (PyStr (last (split "." s) EmptyString))
      | _ => Raise AttributeError
      end
    else Return PyNone
  else Return PyNone.

(** [ListDir.set_last_modified_by_name(cls, v, values)] *)
Definition ListDir_set_last_modified_by_name (v : pyobj) (values : pydict)
  : result pyobj :=
  let last_modified_by := get "last_modified_by" values in
  if truthy last_modified_by then
    has_user <- py_contains "user" last_modified_by ;;
    if has_user : bool then
      user <- py_getitem "user" last_modified_by ;;
      has_key <- py_contains "displayName" user ;;
      if has_key : bool then
        user <- py_getitem "user" last_modified_by ;;
        py_getitem "displayName" user
      else Return PyNone
    else Return PyNone
  else Return PyNone.

(** [ListDir.set_last_modified_by_email(cls, v, values)] *)
Definition ListDir_set_last_modified_by_email (v : pyobj) (values : pydict)
  : result pyobj :=
  let last_modified_by := get "last_modified_by" values in
  if truthy last_modified_by then
    has_user <- py_contains "user" last_modified_by ;;
    if has_user : bool then
      user <- py_getitem "user" last_modified_by ;;
      has_key <- py_contains "email" user ;;
      if has_key : bool then
        user <- py_getitem "user" last_modified_by ;;
        py_getitem "email" user
      else Return PyNone
    else Return PyNone
  else Return PyNone.

(** [ListDir]; its [dict] excludes [folder] and [last_modified_by]. *)
Definition ListDir : Model :=
  {| fields :=
       [ Field "id" T_str "id";
         Field "name" T_str "name";
         Optional_str "extension" (Some ListDir_set_extension);
         Field_None "size" T_int "size";
         Optional_str "path" None;
         Field_None "web_url" T_str "webUrl";
         Field_None "folder" T_dict "folder";
         Field "created_date_time" T_datetime "createdDateTime";
         Field_None "last_modified_date_time" T_datetime "lastModifiedDateTime";
         Field_None "last_modified_by" T_dict "lastModifiedBy";
         Optional_str "last_modified_by_name" (Some ListDir_set_last_modified_by_name);
         Optional_str "last_modified_by_email" (Some ListDir_set_last_modified_by_email) ];
     exclude := ["folder"; "last_modified_by"] |}.

Definition CreateDir : Model :=
  {| fields :=
       [ Field "id" T_str "id";
         Field_None "name" T_str "name";
         Field_None "web_url" T_str "webUrl";
         Field "created_date_time" T_datetime "createdDateTime" ];
     exclude := [] |}.

Definition RenameFolder : Model :=
  {| fields :=
       [ Field "id" T_str "id";
         Field "name" T_str "name";
         Field_None "web_url" T_str "webUrl";
         Field "created_date_time" T_datetime "createdDateTime";
         Field_None "last_modified_date_time" T_datetime "lastModifiedDateTime" ];
     exclude := [] |}.

(** [GetFileInfo.set_last_modified_by_email(cls, v, values)] *)
Definition GetFileInfo_set_last_modified_by_email (v : pyobj) (values : pydict)
  : result pyobj :=
  let last_modified_by := get "last_modified_by" values in
  if truthy last_modified_by then
    has_user <- py_contains "user" last_modified_by ;;
    if has_user : bool then
      user <- py_getitem "user" last_modified_by ;;
      has_key <- py_contains "email" user ;;
      if has_key : bool then
        user <- py_getitem "user" last_modified_by ;;
        py_getitem "email" user
      else Return PyNone
    else Return PyNone
  else Return PyNone.

(** [GetFileInfo]; its [dict] excludes [last_modified_by]. *)
Definition GetFileInfo : Model :=
  {| fields :=
       [ Field "id" T_str "id";
         Field "name" T_str "name";
         Field_None "web_url" T_str "webUrl";
         Field_None "size" T_int "size";
         Field "created_date_time" T_datetime "createdDateTime";
         Field_None "last_modified_date_time" T_datetime "lastModifiedDateTime";
         Field_None "last_modified_by" T_dict "lastModifiedBy";
         Optional_str "last_modified_by_email"
           (Some GetFileInfo_set_last_modified_by_email) ];
     exclude := ["last_modified_by"] |}.

Definition MoveFile : Model :=
  {| fields :=
       [ Field "id" T_str "id";
         Field "name" T_str "name";
         Field_None "web_url" T_str "webUrl";
         Field_None "size" T_int "size";
         Field "created_date_time" T_datetime "createdDateTime";
         Field_None "last_modified_date_time" T_datetime "lastModifiedDateTime" ];
     exclude := [] |}.

Definition RenameFile : Model :=
  {| fields :=
       [ Field "id" T_str "id";
         Field "name" T_str "name";
         Field_None "web_url" T_str "webUrl";
         Field_None "size" T_int "size";
         Field "created_date_time" T_datetime "createdDateTime";
         Field_None "last_modified_date_time" T_datetime "lastModifiedDateTime" ];
     exclude := [] |}.

Definition UploadFile : Model :=
  {| fields :=
       [ Field "id" T_str "id";
         Field_None "name" T_str "name";
         Field_None "size" T_int "size" ];
     exclude := [] |}.

Definition ListLists : Model :=
  {| fields :=
       [ Field "id" T_str "id";
         Field_None "name" T_str "name";
         Field_None "display_name" T_str "displayName";
         Field_None "description" T_str "description";
         Field_None "web_url" T_str "webUrl";
         Field "created_date_time" T_datetime "createdDateTime";
         Field_None "last_modified_date_time" T_datetime "lastModifiedDateTime" ];
     exclude := [] |}.

Definition ListListColumns : Model :=
  {| fields :=
       [ Field "id" T_str "id";
         Field "name" T_str "name";
         Field "display_name" T_str "displayName";
         Field "description" T_str "description";
         Field "column_group" T_str "columnGroup";
         Field "enforce_unique_values" T_bool "enforceUniqueValues";
         Field "hidden" T_bool "hidden";
         Field "indexed" T_bool "indexed";
         Field "read_only" T_bool "readOnly";
         Field "required" T_bool "required" ];
     exclude := [] |}.

Definition AddListItem : Model :=
  {| fields :=
       [ Field "id" T_str "id";
         Field_None "name" T_str "name";
         Field_None "web_url" T_str "webUrl";
         Field "created_date_time" T_datetime "createdDateTime" ];
     exclude := [] |}.

(** Every schema of the module. *)
Definition all_models : list Model :=
  [ GetSiteInfo; GetHostNameInfo; ListDrives; GetDirInfo; ListDir; CreateDir;
    RenameFolder; GetFileInfo; MoveFile; RenameFile; UploadFile; ListLists;
    ListListColumns; AddListItem ].

End models.
Import models.

(* ================================================================== *)
(** ** sharepoint.py: response handling *)

(** [requests.Response], as far as the client reads it: the status code, the
    body as bytes and what [response.json()] decodes ([None] when the body
    is not JSON and [json()] raises). *)
Module requests.
Record Response := {
  status_code : Z;
  content : string;
  decoded : option pyobj
}.

Definition json (response : Response) : result pyobj :=
  match decoded response with
  | Some v => Return v
  | None => Raise JSONDecodeError
  end.
End requests.

(** [SharePoint.Response]: the result envelope.  Its [content] is [Any]: an
    object built from JSON, or the bytes of a downloaded file. *)
Inductive Any :=
| Obj (v : pyobj)
| Bytes (b : string).

Record Response := {
  status_code : Z;
  content : Any
}.

(** [[field.alias for field in model.__fields__.values()
      if field.field_info.alias is not None]] *)
Definition alias_list (model : Model) : list string :=
  map alias
    (filter (fun field => match field_info_alias field with
                          | Some _ => true
                          | None => false
                          end) (fields model)).

(** [params = {"$select": ",".join(alias_list)}] *)
Definition params (model : Model) : pydict :=
  [("$select", PyStr (join "," (alias_list model)))].

Section Dispatcher.

Variable rt : Runtime.

(** [Model.validate(value)], the validator of a model class: a dict is
    unpacked into the constructor, anything else goes through [dict(value)]
    first. *)
Definition Model_validate (model : Model) (value : pyobj) : result pydict :=
  match value with
  | PyDict d => init rt model d
  | _ =>
      match dict_of rt value with
      | Some d => init rt model d
      | None => Raise (ValidationError [([], DictError)])
      end
  end.

(** [ModelField.validate] on an item of a [list[model]]: [None] is refused
    before any validator runs, every other value goes to [Model.validate]. *)
Definition validate_item (model : Model) (v_ : pyobj) : result pydict :=
  if is_none v_ then Raise (ValidationError [([], NoneIsNotAllowedError)])
  else Model_validate model v_.

Definition at_item (i : nat) (e : ErrorWrapper) : ErrorWrapper :=
  (Loc "__root__" :: Idx i :: fst e, snd e).

(** [ModelField._validate_sequence_like]: every item is validated, by the
    [validate] of the item field; the
    errors of all items are gathered, the results of the valid ones too.  An
    exception that is neither a [ValueError] nor a [TypeError] leaves the
    loop at once. *)
Fixpoint validate_sequence_like (model : Model) (i : nat) (v : list pyobj)
    (result_ : list pydict) (errors : list ErrorWrapper)
  : result (list pydict * list ErrorWrapper) :=
  match v with
  | [] => Return (result_, errors)
  | v_ :: rest =>
      match validate_item model v_ with
      | Return r =>
          validate_sequence_like model (S i) rest (result_ ++ [r]) errors
      | Raise (ValidationError ee) =>
          validate_sequence_like model (S i) rest result_
            (errors ++ map (at_item i) ee)
      | Raise TypeError =>
          validate_sequence_like model (S i) rest result_
            (errors ++ [([Loc "__root__"; Idx i], ValidatorTypeError)])
      | Raise JSONDecodeError =>
          validate_sequence_like model (S i) rest result_
            (errors ++ [([Loc "__root__"; Idx i], ValidatorValueError)])
      | Raise e => Raise e
      end
  end.

(** [parse_obj_as(list[model], obj)] *)
Definition parse_obj_as (model : Model) (obj : pyobj) : result (list pydict) :=
  match obj with
  | PyNone => Raise (ValidationError [([Loc "__root__"], NoneIsNotAllowedError)])
  | PyList v =>
      r <- validate_sequence_like model 0 v [] [] ;;
      match r with
      | (validated_list, []) => Return validated_list
      | (_, errors) => Raise (ValidationError errors)
      end
  | _ => Raise (ValidationError [([Loc "__root__"], ListError)])
  end.

(** [SharePoint._handle_response(response, model, rtype)] *)
Definition _handle_response (response : requests.Response) (model : Model)
    (rtype : string) : result pyobj :=
  if String.eqb (lower rtype) "scalar" then
    content_raw <- requests.json response ;;
    match content_raw with
    | PyDict d =>
        validated <- init rt model d ;;
        Return (PyDict (dict model validated))
    | _ => Raise TypeError
    end
  else
    body <- requests.json response ;;
    content_raw <- py_getitem "value" body ;;
    validated_list <- parse_obj_as model content_raw ;;
    Return (PyList (map (fun item => PyDict (dict model item)) validated_list)).

(* ------------------------------------------------------------------ *)
(** *** The operations

    Each takes the reply of the session to the request it sends. *)





(** [path or "/"] *)
Definition path_or_root (path : option string) : string :=
  match path with
  | None => "/"
  | Some p => if String.eqb p EmptyString then "/" else p
  end.

(** [for item in content: item["path"] = p] *)
Fixpoint set_path (p : string) (items : list pyobj) : result (list pyobj) :=
  match items with
  | [] => Return []
  | PyDict d :: rest =>
      rest' <- set_path p rest ;;
      Return (PyDict (setitem "path" (PyStr p) d) :: rest')
  | _ :: _ => Raise TypeError
  end.

Definition add_path (p : string) (content : pyobj) : result pyobj :=
  match content with
  | PyList items => items' <- set_path p items ;; Return (PyList items')
  | PyDict [] => Return content
  | PyStr EmptyString => Return content
  | _ => Raise TypeError
  end.

Definition list_dir (path : option string) (response : requests.Response)
  : result Response :=
  content <- (if requests.status_code response =? 200
              then content <- _handle_response response ListDir "list" ;;
                   add_path (path_or_root path) content
              else Return PyNone) ;;
  Return {| status_code := requests.status_code response; content := Obj content |}.










(** [download_file]: the file is written when the status is 200; the
    envelope never has content. *)
Definition download_file (response : requests.Response) : Response :=
  {| status_code := requests.status_code response; content := Obj PyNone |}.


(** The entry [download_all_files] appends for a file. *)
Definition summary (item : pydict) (filename : pyobj) (status : string) : pyobj :=
  PyDict
    [ ("id", get "id" item);
      ("name", filename);
      ("extension", get "extension" item);
      ("size", get "size" item);
      ("path", get "path" item);
      ("created_date_time", get "created_date_time" item);
      ("last_modified_date_time", get "last_modified_date_time" item);
      ("last_modified_by_name", get "last_modified_by_name" item);
      ("last_modified_by_email", get "last_modified_by_email" item);
      ("status", PyStr status) ].

(** The loop of [download_all_files].  [download_reply filename] is the
    reply to the download of the path made of the folder and [filename].
    [requested] logs the file names [download_file] is called for. *)
Fixpoint download_items (download_reply : pyobj -> requests.Response)
    (items : list pyobj) (content : list pyobj) (requested : list pyobj)
  : result (list pyobj * list pyobj) :=
  match items with
  | [] => Return (content, requested)
  | PyDict item :: rest =>
      if is_none (get "extension" item) then
        download_items download_reply rest content requested
      else
        let filename := get "name" item in
        let sub_response := download_file (download_reply filename) in
        let status := if status_code sub_response =? 200 then "pass" else "fail" in
        download_items download_reply rest
          (content ++ [summary item filename status])
          (requested ++ [filename])
  | _ :: _ => Raise AttributeError
  end.

(** The items a [for] loop visits in the content of an envelope, as far as
    the loop body can run on them: the items of a list; nothing in an empty
    dict, str or bytes. *)
Definition loop_items (c : Any) : result (list pyobj) :=
  match c with
  | Obj (PyList items) => Return items
  | Obj (PyDict []) => Return []
  | Obj (PyStr EmptyString) => Return []
  | Bytes EmptyString => Return []
  | Obj (PyDict _) => Raise AttributeError
  | Obj (PyStr _) => Raise AttributeError
  | Bytes _ => Raise AttributeError
  | Obj _ => Raise TypeError
  end.

(** [download_all_files]: the envelope and the file names requested. *)
Definition download_all_files (remote_path : string)
    (list_reply : requests.Response) (download_reply : pyobj -> requests.Response)
  : result (Response * list pyobj) :=
  response <- list_dir (Some remote_path) list_reply ;;
  if negb (status_code response =? 200) then
    Return ({| status_code := status_code response; content := Obj PyNone |}, [])
  else
    items <- loop_items (content response) ;;
    r <- download_items download_reply items [] [] ;;
    Return ({| status_code := status_code response; content := Obj (PyList (fst r)) |},
            snd r).








(* ------------------------------------------------------------------ *)
(** *** The operations as one table *)




End Dispatcher.




(* ================================================================== *)
(** ** A runtime to evaluate sample responses *)

(** The Graph API writes its timestamps as [YYYY-MM-DDTHH:MM:SSZ].
    [utc_timestamp] reads that layout, with the range checks of the
    [datetime] constructor; pydantic's parser gives the same value on it.
    [sample.runtime] converts these timestamps, plain decimal numerals and
    lists of [[key, value]] pairs with string keys, and nothing else: it
    serves to run the schemas on sample responses that need no other
    conversion. *)
Module sample.

Definition digit (a : ascii) : option Z :=
  let n := Z.of_nat (nat_of_ascii a) in
  if (48 <=? n) && (n <=? 57) then Some (n - 48) else None.

(** Exactly [k] digits, then the rest of the string. *)
Fixpoint digits (k : nat) (acc : Z) (s : string) : option (Z * string) :=
  match k with
  | O => Some (acc, s)
  | S k' =>
      match s with
      | String a s' =>
          match digit a with
          | Some d => digits k' (10 * acc + d) s'
          | None => None
          end
      | EmptyString => None
      end
  end.

Definition expect (c : ascii) (s : string) : option string :=
  match s with
  | String a s' => if Ascii.eqb a c then Some s' else None
  | EmptyString => None
  end.

Definition is_leap (y : Z) : bool :=
  ((y mod 4 =? 0) && negb (y mod 100 =? 0)) || (y mod 400 =? 0).

Definition days_in_month (y m : Z) : Z :=
  if m =? 2 then (if is_leap y then 29 else 28)
  else if (m =? 4) || (m =? 6) || (m =? 9) || (m =? 11) then 30
  else 31.

Definition utc_timestamp (s : string) : option datetime :=
  match digits 4 0 s with
  | Some (y, s) =>
  match expect "-" s with
  | Some s =>
  match digits 2 0 s with
  | Some (mo, s) =>
  match expect "-" s with
  | Some s =>
  match digits 2 0 s with
  | Some (d, s) =>
  match expect "T" s with
  | Some s =>
  match digits 2 0 s with
  | Some (h, s) =>
  match expect ":" s with
  | Some s =>
  match digits 2 0 s with
  | Some (mi, s) =>
  match expect ":" s with
  | Some s =>
  match digits 2 0 s with
  | Some (se, s) =>
      if String.eqb s "Z"
         && (1 <=? y) && (1 <=? mo) && (mo <=? 12)
         && (1 <=? d) && (d <=? days_in_month y mo)
         && (h <=? 23) && (mi <=? 59) && (se <=? 59)
      then Some {| year := y; month := mo; day := d; hour := h; minute := mi;
                   second := se; microsecond := 0; utcoffset := Some 0 |}
      else None
  | None => None end | None => None end | None => None end | None => None end
  | None => None end | None => None end | None => None end | None => None end
  | None => None end | None => None end | None => None end.

(** One or more decimal digits. *)
Fixpoint numeral (acc : Z) (s : string) : option Z :=
  match s with
  | EmptyString => Some acc
  | String a s' =>
      match digit a with
      | Some d => numeral (10 * acc + d) s'
      | None => None
      end
  end.

(** [dict(l)] for a list of two-item lists whose first item is a str. *)
Definition pairs (l : list pyobj) : option pydict :=
  fold_left (fun acc item =>
               match acc, item with
               | Some d, PyList [PyStr k; v] => Some (setitem k v d)
               | _, _ => None
               end) l (Some []).

Definition runtime : Runtime :=
  {| parse_datetime := fun v =>
       match v with PyStr s => utc_timestamp s | _ => None end;
     int_of_str := fun s =>
       match s with EmptyString => None | _ => numeral 0 s end;
     dict_of := fun v =>
       match v with PyList l => pairs l | _ => None end |}.

End sample.

(** The two scenarios of the directory listing: a file and a folder. *)
Definition raw_file : pydict :=
  [ ("id", PyStr "1"); ("name", PyStr "a.txt");
    ("createdDateTime", PyStr "2024-01-01T00:00:00Z") ].

Definition raw_folder : pydict :=
  [ ("id", PyStr "2"); ("name", PyStr "Docs");
    ("folder", PyDict [("childCount", PyInt 3)]);
    ("createdDateTime", PyStr "2024-01-01T00:00:00Z") ].

Definition raw_dotted_folder : pydict :=
  [ ("id", PyStr "2"); ("name", PyStr "reports.2024");
    ("folder", PyDict [("childCount", PyInt 3)]);
    ("createdDateTime", PyStr "2024-01-01T00:00:00Z") ].

(* ================================================================== *)
(** ** Auxiliary notions for the proofs *)

(** A run of the loop in which every field is accepted. *)
Fixpoint accepted (rt : Runtime) (fs : list ModelField) (input_data values values' : pydict)
  : Prop :=
  match fs with
  | [] => values' = values
  | f :: fs' =>
      exists v, field_outcome rt f input_data values = Return (inl v) /\
                accepted rt fs' input_data (values ++ [(name f, v)]) values'
  end.


(** Case analysis on the tests of a validator, for goals of the form
    [... = Raise e -> e = TypeError]. *)
Ltac unfold_dict := simpl; unfold dict_contains, getitem; simpl.

Ltac raises_TypeError :=
  unfold_dict;
  repeat match goal with
         | |- context [lookup ?k ?d] => destruct (lookup k d); unfold_dict
         | |- context [py_contains _ ?o] => is_var o; destruct o; unfold_dict
         | |- context [match ?o with PyNone => _ | _ => _ end] =>
             destruct o; unfold_dict
         | |- context [if ?c then _ else _] => destruct c; unfold_dict
         | |- context [match ?l with [] => _ | _ :: _ => _ end] =>
             destruct l; unfold_dict
         end;
  try discriminate;
  try (let H := fresh in intros H; injection H as <-; reflexivity).

Ltac unfold_field :=
  unfold field_outcome, validate, after_pre, alias, validate_always, allow_none,
    Field, Field_None, Optional_str; simpl.

(** The exceptions pydantic does not catch around a validator: those that
    are neither a [ValueError] nor a [TypeError]. *)
Definition uncaught (e : exn) : Prop :=
  match e with
  | KeyError _ | AttributeError => True
  | _ => False
  end.

(** No string occurs twice. *)
Fixpoint distinct (l : list string) : bool :=
  match l with
  | [] => true
  | x :: rest => negb (mem x rest) && distinct rest
  end.

(** [None] or a str. *)
Definition scalar (v : pyobj) : Prop := v = PyNone \/ exists s, v = PyStr s.

(** The fields a record derives or receives from the dispatcher, none of
    them read from the remote service. *)
Definition derived_names : list string :=
  ["extension"; "path"; "last_modified_by_name"; "last_modified_by_email"].

(** A record of the normalized output of a schema: its keys are the
    declared field names without the excluded ones; none of the raw nested
    inputs is a key, under its field name or its remote name; each derived
    field it has is [None] or a str. *)
Definition normalized (model : Model) (o : pyobj) : Prop :=
  exists d,
    o = PyDict d /\
    map fst d = filter (fun n => negb (mem n (exclude model)))
                  (map name (fields model)) /\
    lookup "folder" d = None /\
    lookup "last_modified_by" d = None /\
    lookup "lastModifiedBy" d = None /\
    (forall k v, In k derived_names -> lookup k d = Some v -> scalar v).

(** A listing of one file whose raw object carries a [path] of its own. *)
Definition listing_with_raw_path : requests.Response :=
  {| requests.status_code := 200;
     requests.content := EmptyString;
     requests.decoded :=
       Some (PyDict
               [("value",
                 PyList [PyDict (raw_file ++ [("path", PyStr "elsewhere")])])]) |}.

(** A listing of a folder: a file with its last modifier, a folder whose
    name has a dot, a folder and a file whose names have none. *)
Definition raw_report : pydict :=
  [ ("id", PyStr "7"); ("name", PyStr "report.final.csv"); ("size", PyInt 120);
    ("createdDateTime", PyStr "2024-01-01T00:00:00Z");
    ("lastModifiedBy",
     PyDict [("user", PyDict [("displayName", PyStr "Ann");
                              ("email", PyStr "ann@example.org")])]) ].

Definition raw_readme : pydict :=
  [ ("id", PyStr "9"); ("name", PyStr "README");
    ("createdDateTime", PyStr "2024-01-01T00:00:00Z") ].

Definition sample_listing : requests.Response :=
  {| requests.status_code := 200;
     requests.content := EmptyString;
     requests.decoded :=
       Some (PyDict
               [("value",
                 PyList [PyDict raw_report; PyDict raw_dotted_folder;
                         PyDict raw_folder; PyDict raw_readme])]) |}.

(** The download of [report.final.csv] succeeds, every other one is
    refused. *)
Definition sample_downloads (filename : pyobj) : requests.Response :=
  {| requests.status_code :=
       match filename with
       | PyStr "report.final.csv" => 200
       | _ => 404
       end;
     requests.content := EmptyString;
     requests.decoded := None |}.






(** The raw value already has the declared type of the field. *)
Definition native (t : type_) (v : pyobj) : bool :=
  match t, v with
  | T_str, PyStr _ => true
  | T_int, PyInt _ => true
  | T_bool, PyBool _ => true
  | T_dict, PyDict _ => true
  | T_datetime, PyDatetime _ => true
  | _, _ => false
  end.

(** The round trip as the specification states it: every field that is
    read from the raw object and kept in the output reads back as the very
    value the raw object has under the remote name. *)
Definition reads_back_exactly (model : Model) (raw values : pydict) : Prop :=
  forall f a v,
    In f (fields model) -> field_info_alias f = Some a ->
    ~ In (name f) (exclude model) ->
    lookup a raw = Some v ->
    lookup (name f) (dict model values) = Some v.

(** An uploaded file whose [id] comes as a number. *)
Definition raw_numeric_id : pydict := [("id", PyInt 7); ("name", PyStr "a.txt")].

(** What each schema is checked for once: the names are distinct, no field
    read under an alias has a validator of its own, and every required
    field is read under an alias. *)
Definition well_formed (model : Model) : bool :=
  distinct (map name (fields model)) &&
  forallb (fun f => match field_info_alias f, pre_validator f with
                    | Some _, Some _ => false
                    | None, _ => negb (required f)
                    | _, _ => true
                    end) (fields model).

(** A validator that raises nothing but [TypeError], which pydantic turns
    into the error of the field. *)
Definition tame (f : ModelField) : Prop :=
  match pre_validator f with
  | None => True
  | Some validator =>
      forall v values e, validator v values = Raise e -> e = TypeError
  end.

(** Why a required field is refused, if it is: it is absent, it is [None],
    or the validator of its declared type rejects the value. *)
Definition refusal (rt : Runtime) (f : ModelField) (raw : pydict) : option error_type :=
  match lookup (alias f) raw with
  | None => Some MissingError
  | Some PyNone => Some NoneIsNotAllowedError
  | Some v =>
      match type_validator rt (ftype f) v with
      | inr e => Some e
      | inl _ => None
      end
  end.


Definition raw_site_listed_id : pydict :=
  [("id", PyList [PyStr "a"]); ("createdDateTime", PyStr "2024-01-01T00:00:00Z")].












Definition raw_without_user : pydict :=
  [ ("id", PyStr "1"); ("name", PyStr "a.txt");
    ("createdDateTime", PyStr "2024-01-01T00:00:00Z");
    ("lastModifiedBy", PyDict [("application", PyDict [])]) ].



(** The raw listing entry of the report, with keys the schema does not
    declare and a value under the name of a derived field. *)
Definition raw_report_with_extras : pydict :=
  ("@odata.etag", PyStr "x") :: ("extension", PyStr "zip") :: raw_report.

(** The [name] field of [ListDir]. *)
Definition ListDir_name : ModelField := Field "name" T_str "name".

(** A listing entry without a name. *)
Definition raw_nameless : pydict :=
  [ ("id", PyStr "1"); ("createdDateTime", PyStr "2024-01-01T00:00:00Z") ].

(* ================================================================== *)
(** * Properties *)

Unset Implicit Arguments.

(** ** Dictionaries *)

Lemma lookup_app_Some (k : string) (d d' : pydict) (v : pyobj) :
  lookup k d = Some v -> lookup k (d ++ d') = Some v.
Proof.
  induction d as [|[k' v'] d IH]; simpl; [discriminate|].
  destruct (String.eqb k k'); auto.
Qed.

Lemma lookup_app_None (k : string) (d d' : pydict) :
  lookup k d = None -> lookup k (d ++ d') = lookup k d'.
Proof.
  induction d as [|[k' v'] d IH]; simpl; [reflexivity|].
  destruct (String.eqb k k'); [discriminate|auto].
Qed.

Lemma lookup_filter (p : string -> bool) (k : string) (d : pydict) :
  lookup k (filter (fun kv => p (fst kv)) d) = if p k then lookup k d else None.
Proof.
  induction d as [|[k' v'] d IH]; simpl.
  - destruct (p k); reflexivity.
  - destruct (p k') eqn:Hk'; simpl.
    + destruct (String.eqb k k') eqn:E.
      * apply String.eqb_eq in E; subst. rewrite Hk'. reflexivity.
      * exact IH.
    + destruct (String.eqb k k') eqn:E.
      * apply String.eqb_eq in E; subst. rewrite Hk' in *. exact IH.
      * exact IH.
Qed.

Lemma lookup_setitem (k : string) (v : pyobj) (d : pydict) :
  lookup k (setitem k v d) = Some v.
Proof.
  induction d as [|[k' v'] d IH]; simpl.
  - rewrite String.eqb_refl. reflexivity.
  - destruct (String.eqb k k') eqn:E; simpl.
    + rewrite String.eqb_refl. reflexivity.
    + rewrite E. exact IH.
Qed.

Lemma mem_In (k : string) (l : list string) : mem k l = true <-> In k l.
Proof.
  unfold mem. rewrite existsb_exists. split.
  - intros (x & Hx & E). apply String.eqb_eq in E. subst. exact Hx.
  - intros H. exists k. split; [exact H|apply String.eqb_refl].
Qed.

(** What [dict] leaves out is not a key of its result. *)
Lemma dict_excluded (model : Model) (values : pydict) (k : string) :
  In k (exclude model) -> lookup k (dict model values) = None.
Proof.
  intros H. unfold dict.
  rewrite (lookup_filter (fun k => negb (mem k (exclude model)))).
  apply mem_In in H. rewrite H. reflexivity.
Qed.

Lemma dict_kept (model : Model) (values : pydict) (k : string) :
  ~ In k (exclude model) -> lookup k (dict model values) = lookup k values.
Proof.
  intros H. unfold dict.
  rewrite (lookup_filter (fun k => negb (mem k (exclude model)))).
  destruct (mem k (exclude model)) eqn:E; [|reflexivity].
  apply mem_In in E. contradiction.
Qed.

(** ** The field loop *)

Section FieldLoop.

Variable rt : Runtime.

(** The errors only grow along the loop. *)
Lemma validate_fields_errors (fs : list ModelField) (input_data : pydict) :
  forall values errors values' errors',
    validate_fields rt fs input_data values errors = Return (values', errors') ->
    exists extra, errors' = errors ++ extra.
Proof.
  induction fs as [|f fs IH]; simpl; intros values errors values' errors' H.
  - injection H as _ <-. exists []. symmetry. apply app_nil_r.
  - destruct (field_outcome rt f input_data values) as [[v|e]|x]; simpl in H;
      try discriminate.
    + eapply IH; eauto.
    + apply IH in H. destruct H as [extra ->].
      eexists. rewrite <- app_assoc. reflexivity.
Qed.

Lemma validate_fields_accepted (fs : list ModelField) (input_data : pydict) :
  forall values values',
    validate_fields rt fs input_data values [] = Return (values', []) <->
    accepted rt fs input_data values values'.
Proof.
  induction fs as [|f fs IH]; simpl; intros values values'.
  - split; [intros H; injection H as <-; reflexivity|intros ->; reflexivity].
  - split.
    + intros H.
      destruct (field_outcome rt f input_data values) as [[v|e]|x]; simpl in H;
        try discriminate.
      * exists v. split; [reflexivity|]. apply IH. exact H.
      * apply validate_fields_errors in H. destruct H as [extra H].
        simpl in H. discriminate.
    + intros (v & Hv & Hrest). rewrite Hv. simpl. apply IH. exact Hrest.
Qed.

(** Construction succeeds exactly when every field is accepted. *)
Lemma init_accepted (model : Model) (input_data values : pydict) :
  init rt model input_data = Return values <->
  accepted rt (fields model) input_data [] values.
Proof.
  unfold init. rewrite <- validate_fields_accepted.
  destruct (validate_fields rt (fields model) input_data [] [])
    as [[vs [|e es]]|x]; simpl; split; intros H;
    try discriminate; try (injection H as <-; reflexivity);
    try (injection H as -> ; reflexivity).
Qed.

(** A run that is accepted only appends to [values]. *)
Lemma accepted_extends (fs : list ModelField) (input_data : pydict) :
  forall values values',
    accepted rt fs input_data values values' ->
    exists tail, values' = values ++ tail /\ map fst tail = map name fs.
Proof.
  induction fs as [|f fs IH]; simpl; intros values values' H.
  - subst. exists []. split; [symmetry; apply app_nil_r|reflexivity].
  - destruct H as (v & _ & H). apply IH in H. destruct H as (tail & -> & Hk).
    exists ((name f, v) :: tail). split.
    + rewrite <- app_assoc. reflexivity.
    + simpl. rewrite Hk. reflexivity.
Qed.

(** An exception leaves the loop only when a validator raised one that
    pydantic does not catch. *)
Lemma validate_raises (f : ModelField) (v : pyobj) (values : pydict) (e : exn) :
  validate rt f v values = Raise e -> uncaught e.
Proof.
  unfold validate. destruct (pre_validator f) as [validator|]; [|discriminate].
  destruct (validator v values) as [v'|[ee|k| | | ]]; intros H;
    try discriminate; injection H as <-; exact I.
Qed.

Lemma field_outcome_raises (f : ModelField) (input_data values : pydict) (e : exn) :
  field_outcome rt f input_data values = Raise e -> uncaught e.
Proof.
  unfold field_outcome. destruct (lookup (alias f) input_data).
  - apply validate_raises.
  - destruct (required f); [discriminate|].
    destruct (validate_always f); [apply validate_raises|discriminate].
Qed.

Lemma validate_fields_raises (fs : list ModelField) (input_data : pydict) (e : exn) :
  forall values errors,
    validate_fields rt fs input_data values errors = Raise e -> uncaught e.
Proof.
  induction fs as [|f fs IH]; simpl; intros values errors H; [discriminate|].
  destruct (field_outcome rt f input_data values) as [[v|e']|x] eqn:E;
    simpl in H.
  - eapply IH; eauto.
  - eapply IH; eauto.
  - injection H as <-. eapply field_outcome_raises; eauto.
Qed.

(** Construction raises a [ValidationError] with at least one error, or an
    exception a validator let through. *)
Lemma init_raises (model : Model) (input_data : pydict) (e : exn) :
  init rt model input_data = Raise e ->
  uncaught e \/ exists err errors, e = ValidationError (err :: errors).
Proof.
  unfold init.
  destruct (validate_fields rt (fields model) input_data [] [])
    as [[vs [|err errors]]|x] eqn:E; simpl; intros H; try discriminate.
  - injection H as <-. right. eauto.
  - injection H as <-. left. eapply validate_fields_raises; eauto.
Qed.

End FieldLoop.

(** ** Extension of a directory entry *)

(** A required text field that is accepted holds a str. *)
Lemma required_str_accepted (rt : Runtime) (n a : string) (raw values : pydict)
    (v : pyobj) :
  field_outcome rt (Field n T_str a) raw values = Return (inl v) ->
  exists s, v = PyStr s.
Proof.
  unfold_field.
  destruct (lookup a raw) as [value|]; simpl; [|discriminate].
  destruct value as [|[|]|z|s|l|d|t]; simpl; intros H; try discriminate;
    injection H as <-; eauto.
Qed.

(** What [ListDir] stores as the extension is computed from the name alone:
    when the validator of [extension] runs, [values] holds [id] and [name]
    only, [folder] being declared after [extension]. *)
Lemma ListDir_extension_from_name (rt : Runtime) (raw values : pydict) :
  init rt ListDir raw = Return values ->
  exists s,
    get "name" values = PyStr s /\
    get "extension" values =
      if substring_of "." s then PyStr (last (split "." s) EmptyString)
      else PyNone.
Proof.
  intros H. apply init_accepted in H. cbv [ListDir fields] in H.
  destruct H as (v_id & _ & H). destruct H as (v_name & Hname & H).
  destruct H as (v_ext & Hext & H).
  apply accepted_extends in H. destruct H as (tail & -> & _).
  apply required_str_accepted in Hname. destruct Hname as [s ->].
  exists s. split; [reflexivity|].
  assert (E : v_ext = if substring_of "." s
                      then PyStr (last (split "." s) EmptyString) else PyNone).
  { revert Hext. unfold_field. unfold ListDir_set_extension.
    destruct (lookup "extension" raw); simpl;
      destruct (substring_of "." s); simpl; intros Hext;
      injection Hext as <-; reflexivity. }
  rewrite <- E. reflexivity.
Qed.

(** The segments of [split]: the first has no separator; when there are
    more, the string ends with the separator followed by the last one, which
    has no separator either. *)
Lemma split_last (c : ascii) (s : string) :
  exists h t,
    split c s = h :: t /\
    contains_char c h = false /\
    (t = [] -> s = h) /\
    (t <> [] -> contains_char c s = true /\
                contains_char c (last t EmptyString) = false /\
                exists p, s = (p ++ String c (last t EmptyString))%string).
Proof.
  induction s as [|a s (h & t & Hs & Hh & Hone & Hmore)]; simpl.
  - exists EmptyString, []. split; [reflexivity|]. split; [reflexivity|].
    split; [reflexivity|]. intros N. contradiction.
  - destruct (Ascii.eqb a c) eqn:E.
    + apply Ascii.eqb_eq in E. subst a. rewrite Hs.
      exists EmptyString, (h :: t). split; [reflexivity|].
      split; [reflexivity|]. split; [discriminate|]. intros _.
      split; [reflexivity|].
      destruct t as [|x t].
      * split; [exact Hh|]. exists EmptyString. simpl.
        rewrite (Hone eq_refl). reflexivity.
      * destruct Hmore as (_ & Hl & p & ->); [discriminate|].
        split; [exact Hl|]. exists (String c p). reflexivity.
    + rewrite Hs. exists (String a h), t. split; [reflexivity|].
      split; [simpl; rewrite E; exact Hh|].
      split; [intros Ht; rewrite (Hone Ht); reflexivity|].
      intros Ht. destruct (Hmore Ht) as (Hc & Hl & p & Hp).
      split; [exact Hc|]. split; [exact Hl|].
      exists (String a p). rewrite Hp at 1. reflexivity.
Qed.

Lemma substring_of_char (c : ascii) (s : string) :
  substring_of (String c EmptyString) s = contains_char c s.
Proof.
  induction s as [|a s IH]; simpl; [reflexivity|].
  rewrite IH. destruct (ascii_dec c a) as [E|N].
  - subst a. rewrite Ascii.eqb_refl. destruct s; reflexivity.
  - destruct (Ascii.eqb a c) eqn:E; [|reflexivity].
    apply Ascii.eqb_eq in E. congruence.
Qed.

(** [name.split(".")[-1]] is what follows the last dot of a name that has
    one. *)
Lemma extension_after_last_dot (s : string) :
  substring_of "." s = true ->
  contains_char "." (last (split "." s) EmptyString) = false /\
  exists p, s = (p ++ "." ++ last (split "." s) EmptyString)%string.
Proof.
  rewrite substring_of_char. intros Hdot.
  destruct (split_last "." s) as (h & t & Hs & Hh & Hone & Hmore).
  destruct t as [|x t].
  - rewrite (Hone eq_refl) in Hdot. congruence.
  - destruct Hmore as (_ & Hl & p & Hp); [discriminate|].
    rewrite Hs. change (last (h :: x :: t) EmptyString)
      with (last (x :: t) EmptyString).
    split; [exact Hl|]. exists p. exact Hp.
Qed.

(** C1 (the code departs from the claim): a folder named [reports.2024].
    The raw object carries a folder marker, the record keeps it, and yet
    the derived extension is ["2024"] and not null: the validator of
    [extension] is run before [folder] is validated and reads the name
    only. *)
Theorem C1_dotted_folder_gets_extension :
  exists values,
    init sample.runtime ListDir raw_dotted_folder = Return values /\
    lookup "folder" raw_dotted_folder = Some (PyDict [("childCount", PyInt 3)]) /\
    lookup "folder" values = Some (PyDict [("childCount", PyInt 3)]) /\
    lookup "extension" values = Some (PyStr "2024") /\
    lookup "extension" (dict ListDir values) = Some (PyStr "2024").
Proof.
  eexists. split; [vm_compute; reflexivity|].
  repeat split; reflexivity.
Qed.

(** ** The projection sent as [$select] *)

Lemma alias_list_In (model : Model) (a : string) :
  In a (alias_list model) <->
  exists f, In f (fields model) /\ field_info_alias f = Some a.
Proof.
  unfold alias_list. rewrite in_map_iff. split.
  - intros (f & Ha & Hf). apply filter_In in Hf. destruct Hf as [Hf Hsome].
    exists f. split; [exact Hf|]. unfold alias in Ha.
    destruct (field_info_alias f); [congruence|discriminate].
  - intros (f & Hf & Ha). exists f. split.
    + unfold alias. rewrite Ha. reflexivity.
    + apply filter_In. split; [exact Hf|]. rewrite Ha. reflexivity.
Qed.

Lemma split_without_separator (c : ascii) (x : string) :
  contains_char c x = false -> split c x = [x].
Proof.
  induction x as [|a x IH]; simpl; [reflexivity|].
  destruct (Ascii.eqb a c); simpl; [discriminate|].
  intros H. rewrite (IH H). reflexivity.
Qed.

Lemma split_segment (c : ascii) (x rest : string) :
  contains_char c x = false ->
  split c (x ++ String c rest)%string = x :: split c rest.
Proof.
  induction x as [|a x IH]; simpl.
  - rewrite Ascii.eqb_refl. reflexivity.
  - destruct (Ascii.eqb a c); simpl; [discriminate|].
    intros H. rewrite (IH H). reflexivity.
Qed.

(** Splitting at the separator undoes [join], for segments that do not
    contain the separator. *)
Lemma split_join (c : ascii) (l : list string) :
  l <> [] ->
  forallb (fun x => negb (contains_char c x)) l = true ->
  split c (join (String c EmptyString) l) = l.
Proof.
  induction l as [|x l IH]; [intros H; contradiction|].
  intros _ H. simpl in H. apply andb_prop in H. destruct H as [Hx Hl].
  apply negb_true_iff in Hx.
  destruct l as [|y l].
  - simpl. apply split_without_separator. exact Hx.
  - change (join (String c EmptyString) (x :: y :: l))
      with (x ++ String c (join (String c EmptyString) (y :: l)))%string.
    rewrite (split_segment c x _ Hx). rewrite IH; [reflexivity|discriminate|exact Hl].
Qed.

(** C8: for every schema, the request asks for one thing, [$select], and
    its value is the declared remote names joined by commas: splitting it
    at the commas gives back exactly the aliases declared with
    [Field(alias=...)], in declaration order.  The raw-only inputs that
    [dict] excludes ([folder], [lastModifiedBy]) are among them, and none
    of the derived names is. *)
Theorem C8_select_is_the_declared_aliases (model : Model) :
  In model all_models ->
  params model = [("$select", PyStr (join "," (alias_list model)))] /\
  (exists s,
      map fst (params model) = ["$select"] /\
      lookup "$select" (params model) = Some (PyStr s) /\
      split "," s = alias_list model) /\
  (forall a, In a (alias_list model) <->
             exists f, In f (fields model) /\ field_info_alias f = Some a) /\
  (forall f, In f (fields model) -> In (name f) (exclude model) ->
             In (alias f) (alias_list model)) /\
  (forall d, In d derived_names -> ~ In d (alias_list model)).
Proof.
  intros Hm. split; [reflexivity|].
  assert (Hex : forallb (fun f => negb (mem (name f) (exclude model))
                                  || mem (alias f) (alias_list model))
                  (fields model) = true
                /\ forallb (fun d => negb (mem d (alias_list model)))
                     derived_names = true
                /\ forallb (fun x => negb (contains_char "," x))
                     (alias_list model) = true
                /\ negb (Nat.eqb (length (alias_list model)) 0) = true).
  { simpl in Hm.
    repeat (destruct Hm as [<-|Hm]; [repeat split; vm_compute; reflexivity|]).
    contradiction. }
  destruct Hex as (Hraw & Hder & Hcomma & Hne).
  split; [|split; [apply alias_list_In|split]].
  - exists (join "," (alias_list model)).
    split; [reflexivity|]. split; [reflexivity|].
    apply (split_join "," (alias_list model)); [|exact Hcomma].
    intros E. rewrite E in Hne. discriminate Hne.
  - intros f Hf Hx. rewrite forallb_forall in Hraw. specialize (Hraw f Hf).
    apply mem_In in Hx. rewrite Hx in Hraw. simpl in Hraw.
    apply mem_In. exact Hraw.
  - intros d Hd Hin. rewrite forallb_forall in Hder. specialize (Hder d Hd).
    apply mem_In in Hin. rewrite Hin in Hder. discriminate.
Qed.

Lemma C8_select_of_ListDir :
  In ListDir all_models /\
  lookup "$select" (params ListDir) =
    Some (PyStr "id,name,size,webUrl,folder,createdDateTime,lastModifiedDateTime,lastModifiedBy") /\
  alias_list ListDir =
    ["id"; "name"; "size"; "webUrl"; "folder"; "createdDateTime";
     "lastModifiedDateTime"; "lastModifiedBy"] /\
  (exists s,
      map fst (params ListDir) = ["$select"] /\
      lookup "$select" (params ListDir) = Some (PyStr s) /\
      split "," s = alias_list ListDir) /\
  (forall d, In d derived_names -> ~ In d (alias_list ListDir)).
Proof.
  assert (H : In ListDir all_models) by (simpl; do 4 right; left; reflexivity).
  split; [exact H|]. split; [reflexivity|]. split; [reflexivity|].
  destruct (C8_select_is_the_declared_aliases ListDir H)
    as (_ & Hs & _ & _ & Hd).
  split; [exact Hs|exact Hd].
Defined.

(** ** Records that are accepted *)

Lemma distinct_NoDup (l : list string) : distinct l = true -> NoDup l.
Proof.
  induction l as [|x l IH]; simpl; intros H; constructor.
  - apply andb_prop in H. destruct H as [H _]. intros Hin.
    apply mem_In in Hin. rewrite Hin in H. discriminate.
  - apply IH. apply andb_prop in H. apply H.
Qed.

Lemma lookup_Some_In (k : string) (d : pydict) (v : pyobj) :
  lookup k d = Some v -> In k (map fst d).
Proof.
  induction d as [|[k' v'] d IH]; simpl; [discriminate|].
  destruct (String.eqb k k') eqn:E; intros H.
  - apply String.eqb_eq in E. left. symmetry. exact E.
  - right. apply IH. exact H.
Qed.

Lemma lookup_not_In (k : string) (d : pydict) :
  ~ In k (map fst d) -> lookup k d = None.
Proof.
  intros H. destruct (lookup k d) eqn:E; [|reflexivity].
  apply lookup_Some_In in E. contradiction.
Qed.

Lemma map_fst_filter (p : string -> bool) (d : pydict) :
  map fst (filter (fun kv => p (fst kv)) d) = filter p (map fst d).
Proof.
  induction d as [|[k v] d IH]; simpl; [reflexivity|].
  destruct (p k); simpl; rewrite IH; reflexivity.
Qed.

Section Accepted.

Variable rt : Runtime.

(** The keys of an accepted record are the field names, in order. *)
Lemma init_keys (model : Model) (raw values : pydict) :
  init rt model raw = Return values -> map fst values = map name (fields model).
Proof.
  intros H. apply init_accepted in H. apply accepted_extends in H.
  destruct H as (tail & -> & Hk). exact Hk.
Qed.

(** In an accepted run, each field is stored under its name with the value
    its turn of the loop produced, on the values gathered until then. *)
Lemma accepted_lookup (raw : pydict) (fs : list ModelField) :
  forall values values',
    accepted rt fs raw values values' ->
    NoDup (map name fs) ->
    (forall f, In f fs -> lookup (name f) values = None) ->
    forall f, In f fs ->
      exists v before,
        lookup (name f) values' = Some v /\
        field_outcome rt f raw before = Return (inl v).
Proof.
  induction fs as [|g fs IH]; simpl; intros values values' H Hnd Hfresh f Hf;
    [contradiction|].
  destruct H as (v & Hv & H). inversion Hnd as [|? ? Hg Hnd']; subst.
  destruct Hf as [<-|Hf].
  - exists v, values. split; [|exact Hv].
    apply accepted_extends in H. destruct H as (tail & -> & _).
    apply lookup_app_Some. rewrite lookup_app_None by auto.
    simpl. rewrite String.eqb_refl. reflexivity.
  - apply (IH _ _ H Hnd'); [|exact Hf].
    intros f' Hf'. rewrite lookup_app_None by auto. simpl.
    destruct (String.eqb (name f') (name g)) eqn:E; [|reflexivity].
    apply String.eqb_eq in E. exfalso. apply Hg. rewrite <- E.
    apply in_map. exact Hf'.
Qed.

Lemma init_lookup (model : Model) (raw values : pydict) (f : ModelField) :
  init rt model raw = Return values ->
  distinct (map name (fields model)) = true ->
  In f (fields model) ->
  exists v before,
    lookup (name f) values = Some v /\
    field_outcome rt f raw before = Return (inl v).
Proof.
  intros H Hd Hf. apply init_accepted in H.
  apply (accepted_lookup raw (fields model) [] values H); auto.
  apply distinct_NoDup. exact Hd.
Qed.

(** A text field that is accepted holds [None] or a str. *)
Lemma str_field_accepted (f : ModelField) (raw before : pydict) (v : pyobj) :
  ftype f = T_str ->
  field_outcome rt f raw before = Return (inl v) -> scalar v.
Proof.
  intros Ht.
  assert (Hafter : forall x, after_pre rt f x = inl v -> scalar v).
  { intros x. unfold after_pre. rewrite Ht. simpl.
    destruct (is_none x).
    - destruct (allow_none f); intros E; [|discriminate].
      injection E as <-. left. reflexivity.
    - destruct (str_validator x) as [s|]; intros E; [|discriminate].
      injection E as <-. right. eauto. }
  assert (Hval : forall x, validate rt f x before = Return (inl v) -> scalar v).
  { intros x. unfold validate. destruct (pre_validator f) as [validator|].
    - destruct (validator x before) as [x'|[ | | | | ]]; intros E;
        try discriminate.
      injection E as E. eapply Hafter; eauto.
    - intros E. injection E as E. eapply Hafter; eauto. }
  unfold field_outcome.
  destruct (lookup (alias f) raw) as [value|]; [apply Hval|].
  destruct (required f); [discriminate|].
  destruct (validate_always f); [apply Hval|].
  intros E. injection E as <-. left. reflexivity.
Qed.

End Accepted.

(** ** Response handling *)

Section Handling.

Variable rt : Runtime.

Lemma validate_sequence_like_errors (model : Model) (v : list pyobj) :
  forall i result_ errors result' errors',
    validate_sequence_like rt model i v result_ errors = Return (result', errors') ->
    exists extra, errors' = errors ++ extra.
Proof.
  induction v as [|v_ v IH]; simpl; intros i result_ errors result' errors' H.
  - injection H as _ <-. exists []. symmetry. apply app_nil_r.
  - destruct (validate_item rt model v_) as [r|[ee|k| | | ]];
      try discriminate; try (eapply IH; eassumption);
      apply IH in H; destruct H as [extra ->];
      eexists; rewrite <- app_assoc; reflexivity.
Qed.

Lemma Model_validate_raises (model : Model) (value : pyobj) (e : exn) :
  Model_validate rt model value = Raise e ->
  uncaught e \/ exists err errors, e = ValidationError (err :: errors).
Proof.
  unfold Model_validate.
  destruct value; try apply init_raises;
    (destruct (dict_of rt _); [apply init_raises|]);
    intros H; injection H as <-; right; eauto.
Qed.

Lemma validate_item_raises (model : Model) (value : pyobj) (e : exn) :
  validate_item rt model value = Raise e ->
  uncaught e \/ exists err errors, e = ValidationError (err :: errors).
Proof.
  unfold validate_item. destruct (is_none value).
  - intros H. injection H as <-. right. eauto.
  - apply Model_validate_raises.
Qed.

(** When no error is gathered, every item was validated on its own and the
    results are all there, in order. *)
Lemma validate_sequence_like_valid (model : Model) (v : list pyobj) :
  forall i result_ result',
    validate_sequence_like rt model i v result_ [] = Return (result', []) ->
    exists new,
      result' = result_ ++ new /\
      Forall2 (fun v_ r => validate_item rt model v_ = Return r) v new.
Proof.
  induction v as [|v_ v IH]; simpl; intros i result_ result' H.
  - injection H as <-. exists []. split; [symmetry; apply app_nil_r|constructor].
  - destruct (validate_item rt model v_) as [r|[ee|k| | | ]] eqn:E;
      try discriminate.
    + apply IH in H. destruct H as (new & -> & Hall).
      exists (r :: new). split; [rewrite <- app_assoc; reflexivity|].
      constructor; assumption.
    + apply validate_sequence_like_errors in H. destruct H as [extra H].
      simpl in H. destruct ee; [|discriminate H].
      apply validate_item_raises in E.
      destruct E as [[]|(err & errors & E)]. discriminate E.
    + apply validate_sequence_like_errors in H. destruct H as [extra H].
      simpl in H. discriminate.
    + apply validate_sequence_like_errors in H. destruct H as [extra H].
      simpl in H. discriminate.
Qed.

Lemma parse_obj_as_valid (model : Model) (obj : pyobj) (validated_list : list pydict) :
  parse_obj_as rt model obj = Return validated_list ->
  exists v,
    obj = PyList v /\
    Forall2 (fun v_ r => validate_item rt model v_ = Return r) v validated_list.
Proof.
  unfold parse_obj_as. destruct obj as [| | | |v| |]; try discriminate.
  destruct (validate_sequence_like rt model 0 v [] []) as [[res [|e es]]|x] eqn:E;
    simpl; try discriminate.
  intros H. injection H as <-.
  apply validate_sequence_like_valid in E. destruct E as (new & -> & Hall).
  exists v. split; [reflexivity|exact Hall].
Qed.

Lemma Model_validate_init (model : Model) (value : pyobj) (r : pydict) :
  Model_validate rt model value = Return r ->
  exists d, init rt model d = Return r.
Proof.
  unfold Model_validate.
  destruct value; try (destruct (dict_of rt _); [|discriminate]); eauto.
Qed.

Lemma validate_item_init (model : Model) (value : pyobj) (r : pydict) :
  validate_item rt model value = Return r ->
  exists d, init rt model d = Return r.
Proof.
  unfold validate_item. destruct (is_none value); [discriminate|].
  apply Model_validate_init.
Qed.

(** What [_handle_response] returns: the [dict] of one validated record, or
    the list of the [dict]s of validated records. *)
Lemma handle_response_inv (response : requests.Response) (model : Model)
    (rtype : string) (c : pyobj) :
  _handle_response rt response model rtype = Return c ->
  (exists d values,
      init rt model d = Return values /\ c = PyDict (dict model values)) \/
  (exists validated_list,
      c = PyList (map (fun item => PyDict (dict model item)) validated_list) /\
      Forall (fun item => exists d, init rt model d = Return item) validated_list).
Proof.
  unfold _handle_response.
  destruct (String.eqb (lower rtype) "scalar").
  - destruct (requests.json response) as [content_raw|x]; simpl; [|discriminate].
    destruct content_raw as [| | | | |d|]; try discriminate.
    destruct (init rt model d) as [values|x] eqn:E; simpl; [|discriminate].
    intros H. injection H as <-. left. eauto.
  - destruct (requests.json response) as [body|x]; simpl; [|discriminate].
    destruct (py_getitem "value" body) as [content_raw|x]; simpl; [|discriminate].
    destruct (parse_obj_as rt model content_raw) as [validated_list|x] eqn:E;
      simpl; [|discriminate].
    intros H. injection H as <-. right. exists validated_list.
    split; [reflexivity|].
    apply parse_obj_as_valid in E. destruct E as (v & _ & Hall).
    clear - Hall. induction Hall as [|v_ r v l Hr _ IH]; constructor; auto.
    eapply validate_item_init; eauto.
Qed.

(** The [dict] of a record of [ListDir] or [GetFileInfo] is normalized. *)
Lemma dict_normalized (model : Model) (raw values : pydict) :
  model = ListDir \/ model = GetFileInfo ->
  init rt model raw = Return values ->
  normalized model (PyDict (dict model values)).
Proof.
  intros Hm H.
  assert (Hkeys : map fst (dict model values) =
                  filter (fun n => negb (mem n (exclude model)))
                    (map name (fields model))).
  { unfold dict.
    rewrite (map_fst_filter (fun n => negb (mem n (exclude model)))).
    rewrite (init_keys rt model raw values H). reflexivity. }
  assert (Hcheck :
    distinct (map name (fields model)) = true /\
    forallb (fun f => negb (mem (name f) derived_names)
                      || match ftype f with T_str => true | _ => false end)
      (fields model) = true /\
    forallb (fun k => negb (mem k (filter (fun n => negb (mem n (exclude model)))
                                     (map name (fields model)))))
      ["folder"; "last_modified_by"; "lastModifiedBy"] = true).
  { destruct Hm as [-> | ->]; repeat split; vm_compute; reflexivity. }
  destruct Hcheck as (Hd & Hstr & Hraw).
  assert (Hnone : forall k, In k ["folder"; "last_modified_by"; "lastModifiedBy"] ->
                            lookup k (dict model values) = None).
  { intros k Hk. apply lookup_not_In. rewrite Hkeys. intros Hin.
    rewrite forallb_forall in Hraw. specialize (Hraw k Hk).
    apply mem_In in Hin. rewrite Hin in Hraw. discriminate. }
  exists (dict model values). split; [reflexivity|]. split; [exact Hkeys|].
  split; [apply Hnone; simpl; auto|]. split; [apply Hnone; simpl; auto|].
  split; [apply Hnone; simpl; auto|].
  intros k v Hk Hv.
  assert (Hin : In k (map name (fields model))).
  { apply lookup_Some_In in Hv. rewrite Hkeys in Hv.
    apply filter_In in Hv. apply Hv. }
  apply in_map_iff in Hin. destruct Hin as (f & <- & Hf).
  destruct (init_lookup rt model raw values f H Hd Hf) as (v' & before & Hv' & Hout).
  assert (Hsame : lookup (name f) (dict model values) = lookup (name f) values).
  { destruct (mem (name f) (exclude model)) eqn:E.
    - apply mem_In in E. rewrite (dict_excluded model values _ E) in Hv.
      discriminate.
    - apply dict_kept. intros Hin. apply mem_In in Hin. congruence. }
  rewrite Hsame, Hv' in Hv. injection Hv as <-.
  apply (str_field_accepted rt f raw before v'); [|exact Hout].
  rewrite forallb_forall in Hstr. specialize (Hstr f Hf).
  apply mem_In in Hk. rewrite Hk in Hstr. simpl in Hstr.
  destruct (ftype f); try discriminate. reflexivity.
Qed.

End Handling.

(** C5: whatever [_handle_response] returns for [ListDir] or [GetFileInfo]
    (one record, or a list of records) is normalized: the folder marker
    and the last-modified-by principal are not keys of a record
    ([folder], [last_modified_by], [lastModifiedBy]), the keys are the
    declared names without the excluded ones, and the derived fields hold
    [None] or a str. *)
Theorem C5_output_excludes_raw_nested_objects (rt : Runtime)
    (response : requests.Response) (model : Model) (rtype : string) (c : pyobj) :
  model = ListDir \/ model = GetFileInfo ->
  _handle_response rt response model rtype = Return c ->
  normalized model c \/
  exists items, c = PyList items /\ Forall (normalized model) items.
Proof.
  intros Hm H. apply handle_response_inv in H.
  destruct H as [(d & values & Hinit & ->)|(validated_list & -> & Hall)].
  - left. eapply dict_normalized; eauto.
  - right. eexists. split; [reflexivity|].
    induction Hall as [|item l (d & Hinit) _ IH]; simpl; constructor; auto.
    eapply dict_normalized; eauto.
Qed.

Lemma C5_sample_listing_is_normalized :
  exists c,
    _handle_response sample.runtime sample_listing ListDir "list" = Return c /\
    (normalized ListDir c \/
     exists items, c = PyList items /\ Forall (normalized ListDir) items).
Proof.
  eexists. split; [vm_compute; reflexivity|].
  apply (C5_output_excludes_raw_nested_objects sample.runtime sample_listing
           ListDir "list" _ (or_introl eq_refl)).
  vm_compute. reflexivity.
Defined.

(** ** Listing a folder *)

Lemma lookup_setitem_other (k k' : string) (v : pyobj) (d : pydict) :
  k' <> k -> lookup k' (setitem k v d) = lookup k' d.
Proof.
  intros Hk. induction d as [|[k0 v0] d IH]; simpl.
  - destruct (String.eqb k' k) eqn:E; [|reflexivity].
    apply String.eqb_eq in E. contradiction.
  - destruct (String.eqb k k0) eqn:E; simpl.
    + apply String.eqb_eq in E. subst k0.
      destruct (String.eqb k' k) eqn:E'; [|reflexivity].
      apply String.eqb_eq in E'. contradiction.
    + rewrite IH. reflexivity.
Qed.

Lemma set_path_dicts (p : string) (g : pydict -> pydict) (l : list pydict) :
  set_path p (map (fun item => PyDict (g item)) l) =
  Return (map (fun item => PyDict (setitem "path" (PyStr p) (g item))) l).
Proof.
  induction l as [|item l IH]; simpl; [reflexivity|].
  rewrite IH. reflexivity.
Qed.

(** A listing that is answered with 200 returns the records of [ListDir],
    each with [path] set. *)
Lemma list_dir_200 (rt : Runtime) (path : option string)
    (response : requests.Response) (r : Response) :
  list_dir rt path response = Return r ->
  status_code r = 200 ->
  exists (raw : pyobj) (validated_list : list pydict),
    (body <- requests.json response ;; py_getitem "value" body) = Return raw /\
    parse_obj_as rt ListDir raw = Return validated_list /\
    content r =
      Obj (PyList (map (fun item =>
                          PyDict (setitem "path" (PyStr (path_or_root path))
                                    (dict ListDir item))) validated_list)).
Proof.
  unfold list_dir. intros H Hs.
  destruct (requests.status_code response =? 200) eqn:E.
  2: { simpl in H. injection H as <-. simpl in Hs.
       apply Z.eqb_neq in E. contradiction. }
  unfold _handle_response in H. simpl in H.
  destruct (requests.json response) as [body|x] eqn:Hj; simpl in H;
    [|discriminate].
  destruct (py_getitem "value" body) as [raw|x] eqn:Hv; simpl in H;
    [|discriminate].
  destruct (parse_obj_as rt ListDir raw) as [validated_list|x] eqn:Hp;
    simpl in H; [|discriminate].
  rewrite (set_path_dicts (path_or_root path) (dict ListDir)) in H.
  simpl in H. injection H as <-.
  exists raw, validated_list.
  split; [simpl; exact Hv|]. split; [exact Hp|reflexivity].
Qed.

(** C9: when the listing is answered with 200, the content is the list of
    the records that [ListDir] validates from the [value] of the reply, one
    item for each record and in the same order, and every item is the
    output of its record with [path] set to the folder argument of the
    call, or to ["/"] when that is [None] or empty.  The other keys of the
    item are those of the record; what the record itself holds as [path],
    which may come from the raw response, is overwritten. *)
Theorem C9_list_dir_sets_path_of_every_item (rt : Runtime)
    (path : option string) (response : requests.Response) (r : Response) :
  list_dir rt path response = Return r ->
  status_code r = 200 ->
  (exists (raw : pyobj) (validated_list : list pydict),
     (body <- requests.json response ;; py_getitem "value" body) = Return raw /\
     parse_obj_as rt ListDir raw = Return validated_list /\
     content r =
       Obj (PyList (map (fun item =>
                           PyDict (setitem "path" (PyStr (path_or_root path))
                                     (dict ListDir item))) validated_list)) /\
     forall item, In item validated_list ->
       lookup "path" (setitem "path" (PyStr (path_or_root path)) (dict ListDir item))
         = Some (PyStr (path_or_root path)) /\
       forall k, k <> "path" ->
         lookup k (setitem "path" (PyStr (path_or_root path)) (dict ListDir item))
           = lookup k (dict ListDir item)) /\
  (path = None \/ path = Some EmptyString -> path_or_root path = "/") /\
  (forall p, path = Some p -> p <> EmptyString -> path_or_root path = p).
Proof.
  intros H Hs. split; [|split].
  - destruct (list_dir_200 rt path response r H Hs)
      as (raw & validated_list & Hraw & Hp & Hc).
    exists raw, validated_list.
    split; [exact Hraw|]. split; [exact Hp|]. split; [exact Hc|].
    intros item _. split; [apply lookup_setitem|].
    intros k Hk. apply lookup_setitem_other. exact Hk.
  - intros [-> | ->]; reflexivity.
  - intros p -> Hp. simpl. destruct (String.eqb p EmptyString) eqn:E;
      [|reflexivity]. apply String.eqb_eq in E. contradiction.
Qed.

Lemma C9_raw_path_is_overwritten :
  exists r values,
    list_dir sample.runtime None listing_with_raw_path = Return r /\
    status_code r = 200 /\
    parse_obj_as sample.runtime ListDir
      (PyList [PyDict (raw_file ++ [("path", PyStr "elsewhere")])])
    = Return [values] /\
    lookup "path" values = Some (PyStr "elsewhere") /\
    content r =
      Obj (PyList
             [PyDict
                [ ("id", PyStr "1"); ("name", PyStr "a.txt");
                  ("extension", PyStr "txt"); ("size", PyNone);
                  ("path", PyStr "/"); ("web_url", PyNone);
                  ("created_date_time",
                   PyDatetime
                     {| year := 2024; month := 1; day := 1; hour := 0;
                        minute := 0; second := 0; microsecond := 0;
                        utcoffset := Some 0 |});
                  ("last_modified_date_time", PyNone);
                  ("last_modified_by_name", PyNone);
                  ("last_modified_by_email", PyNone) ]]) /\
    exists (raw : pyobj) (validated_list : list pydict),
      (body <- requests.json listing_with_raw_path ;; py_getitem "value" body)
      = Return raw /\
      parse_obj_as sample.runtime ListDir raw = Return validated_list /\
      content r =
        Obj (PyList (map (fun item =>
                            PyDict (setitem "path" (PyStr "/")
                                      (dict ListDir item))) validated_list)).
Proof.
  eexists. eexists. split; [vm_compute; reflexivity|]. split; [reflexivity|].
  split; [vm_compute; reflexivity|]. split; [reflexivity|].
  split; [reflexivity|].
  destruct (C9_list_dir_sets_path_of_every_item sample.runtime None
              listing_with_raw_path _ eq_refl eq_refl)
    as ((raw & validated_list & Hraw & Hp & Hc & _) & _).
  exists raw, validated_list. split; [exact Hraw|]. split; [exact Hp|exact Hc].
Defined.

(** ** Downloading a folder *)

Lemma download_items_dicts (download_reply : pyobj -> requests.Response)
    (items : list pydict) :
  forall content requested,
    download_items download_reply (map PyDict items) content requested =
    let files := filter (fun item => negb (is_none (get "extension" item))) items in
    Return
      (content ++
         map (fun item =>
                summary item (get "name" item)
                  (if requests.status_code (download_reply (get "name" item)) =? 200
                   then "pass" else "fail")) files,
       requested ++ map (get "name") files).
Proof.
  induction items as [|item items IH]; simpl; intros content requested.
  - rewrite !app_nil_r. reflexivity.
  - destruct (is_none (get "extension" item)); simpl.
    + apply IH.
    + rewrite IH. simpl. rewrite <- !app_assoc. reflexivity.
Qed.

Lemma Forall2_map_In {A B : Type} (P : A -> B -> Prop) (f : A -> B) (l : list A) :
  (forall x, In x l -> P x (f x)) -> Forall2 P l (map f l).
Proof.
  induction l as [|x l IH]; simpl; intros H; constructor; auto.
Qed.

(** When the listing is answered with 200, [download_file] is called for
    the items whose derived extension is not null and for no other, in the
    order of the listing; the content has one entry for each of them, with
    the item's own fields and a [status] that is ["pass"] exactly when the
    download of that file was answered with 200. *)
Lemma download_all_files_skips_null_extension (rt : Runtime)
    (remote_path : string) (list_reply : requests.Response)
    (download_reply : pyobj -> requests.Response)
    (r : Response) (requested : list pyobj) :
  download_all_files rt remote_path list_reply download_reply = Return (r, requested) ->
  status_code r = 200 ->
  exists items : list pydict,
    list_dir rt (Some remote_path) list_reply =
      Return {| status_code := 200; content := Obj (PyList (map PyDict items)) |} /\
    let files := filter (fun item => negb (is_none (get "extension" item))) items in
    requested = map (get "name") files /\
    exists entries,
      content r = Obj (PyList entries) /\
      Forall2 (fun item entry =>
                 exists d,
                   entry = PyDict d /\
                   get "id" d = get "id" item /\
                   get "name" d = get "name" item /\
                   get "extension" d = get "extension" item /\
                   is_none (get "extension" d) = false /\
                   (requests.status_code (download_reply (get "name" item)) = 200 ->
                    get "status" d = PyStr "pass") /\
                   (requests.status_code (download_reply (get "name" item)) <> 200 ->
                    get "status" d = PyStr "fail"))
        files entries.
Proof.
  unfold download_all_files. intros H Hs.
  destruct (list_dir rt (Some remote_path) list_reply) as [response|x] eqn:Hl;
    simpl in H; [|discriminate].
  destruct (status_code response =? 200) eqn:E; simpl in H.
  2: { injection H as <- _. simpl in Hs. apply Z.eqb_neq in E. contradiction. }
  apply Z.eqb_eq in E.
  destruct (list_dir_200 rt (Some remote_path) list_reply response Hl E)
    as (raw & validated_list & _ & _ & Hc).
  set (items := map (fun item => setitem "path" (PyStr (path_or_root (Some remote_path)))
                                   (dict ListDir item)) validated_list) in *.
  assert (Hitems : content response = Obj (PyList (map PyDict items))).
  { rewrite Hc. unfold items. rewrite map_map. reflexivity. }
  assert (Hresp : response =
                  {| status_code := 200; content := Obj (PyList (map PyDict items)) |}).
  { destruct response as [code c]. simpl in E, Hitems. subst. reflexivity. }
  rewrite Hitems in H. simpl in H.
  rewrite download_items_dicts in H. simpl in H. injection H as <- <-.
  exists items. split; [rewrite Hresp; reflexivity|].
  split; [reflexivity|].
  eexists. split; [reflexivity|].
  apply Forall2_map_In. intros item Hin. apply filter_In in Hin.
  destruct Hin as [_ Hext]. apply negb_true_iff in Hext.
  eexists. split; [reflexivity|]. simpl.
  repeat split; try reflexivity; try exact Hext.
  - intros ->. reflexivity.
  - intros Hne. apply Z.eqb_neq in Hne. rewrite Hne. reflexivity.
Qed.

(** C10 (the code departs from the claim): a folder that holds the file
    [report.final.csv], the folders [reports.2024] and [Docs], and the
    file [README].  The two items without a dot in their name are skipped.
    The folder [reports.2024] is not: its raw object carries a folder
    marker, but its derived extension is ["2024"], so [download_file] is
    called for it, whatever the replies to the downloads are, and the
    content lists it; here its download is refused and its [status] is
    ["fail"]. *)
Theorem C10_dotted_folder_is_downloaded :
  requests.json sample_listing =
    Return (PyDict [("value", PyList [PyDict raw_report; PyDict raw_dotted_folder;
                                      PyDict raw_folder; PyDict raw_readme])]) /\
  lookup "name" raw_dotted_folder = Some (PyStr "reports.2024") /\
  lookup "folder" raw_dotted_folder = Some (PyDict [("childCount", PyInt 3)]) /\
  (forall download_reply, exists r,
      download_all_files sample.runtime "docs" sample_listing download_reply =
        Return (r, [PyStr "report.final.csv"; PyStr "reports.2024"])) /\
  exists r summary_report summary_folder,
    download_all_files sample.runtime "docs" sample_listing sample_downloads =
      Return (r, [PyStr "report.final.csv"; PyStr "reports.2024"]) /\
    status_code r = 200 /\
    content r = Obj (PyList [PyDict summary_report; PyDict summary_folder]) /\
    lookup "name" summary_report = Some (PyStr "report.final.csv") /\
    lookup "status" summary_report = Some (PyStr "pass") /\
    lookup "id" summary_folder = Some (PyStr "2") /\
    lookup "name" summary_folder = Some (PyStr "reports.2024") /\
    lookup "extension" summary_folder = Some (PyStr "2024") /\
    lookup "status" summary_folder = Some (PyStr "fail").
Proof.
  split; [reflexivity|]. split; [reflexivity|]. split; [reflexivity|]. split.
  - intros download_reply. eexists. vm_compute. reflexivity.
  - eexists. eexists. eexists. split; [vm_compute; reflexivity|].
    split; [reflexivity|]. split; [reflexivity|]. repeat split.
Qed.

(** ** Validating a list *)

Section ListValidation.

Variable rt : Runtime.
Variable model : Model.






End ListValidation.




(** ** Reading a record back *)

Lemma all_models_well_formed (model : Model) :
  In model all_models -> well_formed model = true.
Proof.
  simpl. intros H.
  repeat (destruct H as [<-|H]; [vm_compute; reflexivity|]). contradiction.
Qed.

Lemma native_type_validator (rt : Runtime) (t : type_) (v : pyobj) :
  native t v = true -> type_validator rt t v = inl v.
Proof.
  destruct t, v; simpl; try discriminate; reflexivity.
Qed.

(** The turn of a field that is read under an alias and has no validator:
    missing and optional gives [None], [None] is kept when allowed, any
    other value goes through the validator of the declared type. *)
Lemma aliased_field_accepted (rt : Runtime) (f : ModelField) (a : string)
    (raw before : pydict) (x : pyobj) :
  field_info_alias f = Some a -> pre_validator f = None ->
  field_outcome rt f raw before = Return (inl x) ->
  match lookup a raw with
  | None => required f = false /\ x = PyNone
  | Some v =>
      if is_none v then required f = false /\ x = PyNone
      else type_validator rt (ftype f) v = inl x
  end.
Proof.
  intros Ha Hp. unfold field_outcome, validate, validate_always, after_pre,
    allow_none, alias. rewrite Ha, Hp.
  destruct (lookup a raw) as [v|].
  - destruct (is_none v).
    + destruct (required f); simpl; intros H; [discriminate|].
      injection H as <-. auto.
    + intros H. injection H as H. exact H.
  - destruct (required f); intros H; [discriminate|].
    injection H as <-. auto.
Qed.

(** C4, as the code has it: in a record that validates, a field read from
    the raw object and kept in the output reads back as [None] when the raw
    object lacks it or has [None] for it, and otherwise as the raw value
    passed through the validator of the declared type.  That is the raw
    value itself when it already has the declared type; a timestamp given
    as text reads back as the parsed date-time, and a number given for a
    text field as its decimal rendering. *)
Theorem C4_fields_read_back_validated (rt : Runtime) (model : Model)
    (raw values : pydict) (f : ModelField) (a : string) :
  In model all_models ->
  init rt model raw = Return values ->
  In f (fields model) -> field_info_alias f = Some a ->
  ~ In (name f) (exclude model) ->
  match lookup a raw with
  | None => lookup (name f) (dict model values) = Some PyNone
  | Some PyNone => lookup (name f) (dict model values) = Some PyNone
  | Some v =>
      exists x,
        type_validator rt (ftype f) v = inl x /\
        lookup (name f) (dict model values) = Some x /\
        (native (ftype f) v = true -> x = v) /\
        (forall n, ftype f = T_str -> v = PyInt n -> x = PyStr (str_of_int n)) /\
        (forall s, ftype f = T_datetime -> v = PyStr s ->
                   exists t, parse_datetime rt v = Some t /\ x = PyDatetime t)
  end.
Proof.
  intros Hm Hinit Hf Ha Hex.
  pose proof (all_models_well_formed model Hm) as Hwf.
  unfold well_formed in Hwf. apply andb_prop in Hwf. destruct Hwf as [Hd Hnv].
  assert (Hp : pre_validator f = None).
  { rewrite forallb_forall in Hnv. specialize (Hnv f Hf). rewrite Ha in Hnv.
    destruct (pre_validator f); [discriminate|reflexivity]. }
  destruct (init_lookup rt model raw values f Hinit Hd Hf)
    as (x & before & Hx & Hout).
  rewrite (dict_kept model values (name f) Hex).
  pose proof (aliased_field_accepted rt f a raw before x Ha Hp Hout) as H.
  destruct (lookup a raw) as [v|]; [|destruct H as [_ ->]; exact Hx].
  assert (Hgen : is_none v = false ->
                 exists x0,
                   type_validator rt (ftype f) v = inl x0 /\
                   lookup (name f) values = Some x0 /\
                   (native (ftype f) v = true -> x0 = v) /\
                   (forall n, ftype f = T_str -> v = PyInt n ->
                              x0 = PyStr (str_of_int n)) /\
                   (forall s, ftype f = T_datetime -> v = PyStr s ->
                              exists t, parse_datetime rt v = Some t /\
                                        x0 = PyDatetime t)).
  { intros Hn. rewrite Hn in H. exists x. split; [exact H|]. split; [exact Hx|].
    split; [|split].
    - intros Hnat. rewrite (native_type_validator rt _ _ Hnat) in H.
      injection H as <-. reflexivity.
    - intros n Ht ->. rewrite Ht in H. simpl in H. injection H as <-. reflexivity.
    - intros s Ht ->. rewrite Ht in H. simpl in H.
      destruct (parse_datetime rt (PyStr s)) as [t|]; [|discriminate].
      injection H as <-. eauto. }
  destruct v; try (apply Hgen; reflexivity).
  simpl in H. destruct H as [_ ->]. exact Hx.
Qed.

Lemma C4_sample_file_reads_back :
  In ListDir all_models /\
  exists values,
    init sample.runtime ListDir raw_report = Return values /\
    lookup "name" raw_report = Some (PyStr "report.final.csv") /\
    lookup "name" (dict ListDir values) = Some (PyStr "report.final.csv").
Proof.
  assert (Hm : In ListDir all_models) by (simpl; do 4 right; left; reflexivity).
  split; [exact Hm|]. eexists. split; [vm_compute; reflexivity|].
  split; [reflexivity|].
  pose proof (C4_fields_read_back_validated sample.runtime ListDir raw_report _
                (Field "name" T_str "name") "name" Hm eq_refl) as H.
  simpl in H.
  destruct H as (x & _ & Hx & Hnat & _).
  - right. left. reflexivity.
  - reflexivity.
  - intros [E|[E|[]]]; discriminate E.
  - rewrite (Hnat eq_refl) in Hx. exact Hx.
Defined.

(** C4, as stated, fails on an uploaded file whose [id] is the number 7:
    the record validates and its [id] reads back as the text ["7"], which
    is not the value of the raw object. *)
Lemma C4_numeric_id_reads_back_as_text :
  exists values,
    init sample.runtime UploadFile raw_numeric_id = Return values /\
    lookup "id" raw_numeric_id = Some (PyInt 7) /\
    lookup "id" (dict UploadFile values) = Some (PyStr "7") /\
    ~ reads_back_exactly UploadFile raw_numeric_id values.
Proof.
  eexists. split; [vm_compute; reflexivity|]. split; [reflexivity|].
  split; [reflexivity|]. intros H.
  specialize (H (Field "id" T_str "id") "id" (PyInt 7)).
  simpl in H. discriminate H; auto.
Qed.

(** ** Required and optional fields *)

Section Refusal.

Variable rt : Runtime.


Lemma validate_tame (f : ModelField) (v : pyobj) (values : pydict) (e : exn) :
  tame f -> validate rt f v values <> Raise e.
Proof.
  unfold tame, validate. destruct (pre_validator f) as [validator|];
    [|discriminate].
  intros Ht. destruct (validator v values) as [v'|x] eqn:E; [discriminate|].
  rewrite (Ht v values x E). discriminate.
Qed.

Lemma validate_fields_tame (raw : pydict) (fs : list ModelField) :
  Forall tame fs ->
  forall values errors e, validate_fields rt fs raw values errors <> Raise e.
Proof.
  induction 1 as [|f fs Hf _ IH]; simpl; intros values errors e;
    [discriminate|].
  destruct (field_outcome rt f raw values) as [[v|e']|x] eqn:E; simpl;
    try apply IH.
  exfalso. revert E. unfold field_outcome.
  destruct (lookup (alias f) raw); [apply validate_tame; exact Hf|].
  destruct (required f); [discriminate|].
  destruct (validate_always f); [apply validate_tame; exact Hf|discriminate].
Qed.

(** The turn of a required field without a validator that is refused. *)
Lemma refusal_outcome (f : ModelField) (raw : pydict) (e : error_type) :
  required f = true -> pre_validator f = None ->
  refusal rt f raw = Some e ->
  forall before, field_outcome rt f raw before = Return (inr e).
Proof.
  intros Hr Hp. unfold refusal, field_outcome, validate, after_pre, allow_none.
  rewrite Hr, Hp. destruct (lookup (alias f) raw) as [v|].
  - destruct v; simpl; intros H before;
      try (injection H as <-; reflexivity);
      match goal with
      | H : match ?t with inl _ => _ | inr _ => _ end = _ |- _ =>
          destruct t; [discriminate|injection H as <-; reflexivity]
      end.
  - intros H before. injection H as <-. reflexivity.
Qed.

End Refusal.


Lemma ListDir_set_last_modified_by_name_raises (v : pyobj) (values : pydict)
    (e : exn) :
  ListDir_set_last_modified_by_name v values = Raise e -> e = TypeError.
Proof.
  unfold ListDir_set_last_modified_by_name.
  destruct (get "last_modified_by" values) as [|b|n|s|l|d|t]; simpl;
    raises_TypeError.
Qed.

Lemma ListDir_set_last_modified_by_email_raises (v : pyobj) (values : pydict)
    (e : exn) :
  ListDir_set_last_modified_by_email v values = Raise e -> e = TypeError.
Proof.
  unfold ListDir_set_last_modified_by_email.
  destruct (get "last_modified_by" values) as [|b|n|s|l|d|t]; simpl;
    raises_TypeError.
Qed.






(** ** The envelope of a call *)










(** ** The user who last modified an item *)









Section Principal.

Variable rt : Runtime.
Variable raw : pydict.



End Principal.




Section Derived.

Variable rt : Runtime.
Variable raw : pydict.




End Derived.




(* ================================================================== *)
(** * Further properties of the schemas *)

Lemma type_validator_native (rt : Runtime) (t : type_) (x v : pyobj) :
  type_validator rt t x = inl v -> native t v = true.
Proof.
  destruct t; simpl.
  - destruct (str_validator x); intros H; [|discriminate].
    injection H as <-. reflexivity.
  - destruct (int_validator rt x); intros H; [|discriminate].
    injection H as <-. reflexivity.
  - destruct (bool_validator x); intros H; [|discriminate].
    injection H as <-. reflexivity.
  - destruct (dict_validator rt x); intros H; [|discriminate].
    injection H as <-. reflexivity.
  - destruct x; try (destruct (parse_datetime rt _); intros H; [|discriminate];
                     injection H as <-; reflexivity).
    intros H. injection H as <-. reflexivity.
Qed.

(** The value a field is accepted with is [None], on a field that is not
    required, or a value of the declared type. *)
Lemma field_accepted_typed (rt : Runtime) (f : ModelField) (raw before : pydict)
    (v : pyobj) :
  field_outcome rt f raw before = Return (inl v) ->
  (v = PyNone /\ required f = false) \/ native (ftype f) v = true.
Proof.
  assert (Hafter : forall x, after_pre rt f x = inl v ->
                   (v = PyNone /\ required f = false) \/ native (ftype f) v = true).
  { intros x. unfold after_pre, allow_none. destruct (is_none x).
    - destruct (required f); simpl; intros E; [discriminate|].
      injection E as <-. left. auto.
    - intros E. right. eapply type_validator_native; eauto. }
  assert (Hval : forall x, validate rt f x before = Return (inl v) ->
                 (v = PyNone /\ required f = false) \/ native (ftype f) v = true).
  { intros x. unfold validate. destruct (pre_validator f) as [validator|].
    - destruct (validator x before) as [x'|[ | | | | ]]; intros E;
        try discriminate.
      injection E as E. eapply Hafter; eauto.
    - intros E. injection E as E. eapply Hafter; eauto. }
  unfold field_outcome.
  destruct (lookup (alias f) raw) as [value|]; [apply Hval|].
  destruct (required f) eqn:Hr; [discriminate|].
  destruct (validate_always f); [apply Hval|].
  intros E. injection E as <-. left. auto.
Qed.

(** X1: a record that validates is well typed.  For every schema and every
    raw object it accepts, each declared field is a key of the record, and
    its value has the declared type of the field (text, integer, boolean,
    mapping, date-time), or is [None] on a field that is not required. *)
Theorem X1_validated_record_is_well_typed (rt : Runtime) (model : Model)
    (raw values : pydict) (f : ModelField) :
  In model all_models ->
  init rt model raw = Return values ->
  In f (fields model) ->
  exists v,
    lookup (name f) values = Some v /\
    ((v = PyNone /\ required f = false) \/ native (ftype f) v = true).
Proof.
  intros Hm Hinit Hf.
  pose proof (all_models_well_formed model Hm) as Hwf.
  unfold well_formed in Hwf. apply andb_prop in Hwf. destruct Hwf as [Hd _].
  destruct (init_lookup rt model raw values f Hinit Hd Hf)
    as (v & before & Hv & Hout).
  exists v. split; [exact Hv|]. eapply field_accepted_typed; eauto.
Qed.

Lemma X1_sample_report_size_is_an_integer :
  exists values,
    init sample.runtime ListDir raw_report = Return values /\
    exists v,
      lookup "size" values = Some v /\
      ((v = PyNone /\ false = false) \/ native T_int v = true).
Proof.
  eexists. split; [vm_compute; reflexivity|].
  apply (X1_validated_record_is_well_typed sample.runtime ListDir raw_report _
           (Field_None "size" T_int "size")).
  - simpl. do 4 right. left. reflexivity.
  - vm_compute. reflexivity.
  - simpl. do 3 right. left. reflexivity.
Defined.

(** ** What a record depends on *)

Section ReadKeys.

Variable rt : Runtime.



End ReadKeys.




(** ** The keys of the output *)

(** X3: for every schema, the output of a record that validates has as
    its keys the declared field names without those the schema excludes, in
    declaration order, whatever keys the raw object has. *)
Theorem X3_output_keys_are_the_declared_names (rt : Runtime) (model : Model)
    (raw values : pydict) :
  init rt model raw = Return values ->
  map fst (dict model values) =
    filter (fun n => negb (mem n (exclude model))) (map name (fields model)) /\
  forall k, In k (exclude model) \/ ~ In k (map name (fields model)) ->
            lookup k (dict model values) = None.
Proof.
  intros H.
  assert (Hkeys : map fst (dict model values) =
                  filter (fun n => negb (mem n (exclude model)))
                    (map name (fields model))).
  { unfold dict.
    rewrite (map_fst_filter (fun n => negb (mem n (exclude model)))).
    rewrite (init_keys rt model raw values H). reflexivity. }
  split; [exact Hkeys|].
  intros k [Hk|Hk].
  - apply dict_excluded. exact Hk.
  - apply lookup_not_In. rewrite Hkeys. intros Hin.
    apply filter_In in Hin. apply Hk. apply Hin.
Qed.

Lemma X3_keys_of_the_sample_report :
  exists values,
    init sample.runtime ListDir raw_report_with_extras = Return values /\
    map fst (dict ListDir values) =
      [ "id"; "name"; "extension"; "size"; "path"; "web_url";
        "created_date_time"; "last_modified_date_time";
        "last_modified_by_name"; "last_modified_by_email" ] /\
    lookup "@odata.etag" (dict ListDir values) = None.
Proof.
  eexists. split; [vm_compute; reflexivity|].
  destruct (X3_output_keys_are_the_declared_names sample.runtime ListDir
              raw_report_with_extras _ eq_refl) as [Hkeys Hnone].
  split; [exact Hkeys|]. apply Hnone. right.
  simpl. intros H. repeat (destruct H as [H|H]; [discriminate H|]). exact H.
Defined.

(** ** The extension of a listing entry *)

(** X4: in every record of [ListDir] that validates, the name is a text
    and the extension is read off it alone: null when the name has no dot,
    otherwise the part of the name after its last dot (which may be empty,
    for a name that ends with a dot).  The folder marker plays no part. *)
Theorem X4_extension_is_read_off_the_name (rt : Runtime) (raw values : pydict) :
  init rt ListDir raw = Return values ->
  exists s,
    lookup "name" values = Some (PyStr s) /\
    ((contains_char "." s = false /\
      lookup "extension" values = Some PyNone) \/
     (exists p ext,
         s = (p ++ "." ++ ext)%string /\
         contains_char "." ext = false /\
         lookup "extension" values = Some (PyStr ext))).
Proof.
  intros H. apply init_accepted in H. cbv [ListDir fields] in H.
  destruct H as (v_id & _ & H). destruct H as (v_name & Hname & H).
  destruct H as (v_ext & Hext & H).
  apply accepted_extends in H. destruct H as (tail & -> & _).
  apply required_str_accepted in Hname. destruct Hname as [s ->].
  exists s. split; [reflexivity|].
  revert Hext. unfold_field. unfold ListDir_set_extension. simpl.
  destruct (substring_of "." s) eqn:Hdot.
  - intros Hext. right.
    destruct (extension_after_last_dot s Hdot) as (Hno & p & Hp).
    exists p, (last (split "." s) EmptyString).
    split; [exact Hp|]. split; [exact Hno|].
    destruct (lookup "extension" raw); simpl in Hext;
      injection Hext as <-; reflexivity.
  - intros Hext. left. rewrite substring_of_char in Hdot.
    split; [exact Hdot|].
    destruct (lookup "extension" raw); simpl in Hext;
      injection Hext as <-; reflexivity.
Qed.

Lemma X4_extension_of_the_sample_report :
  exists values s,
    init sample.runtime ListDir raw_report = Return values /\
    lookup "name" values = Some (PyStr s) /\
    ((contains_char "." s = false /\
      lookup "extension" values = Some PyNone) \/
     (exists p ext,
         s = (p ++ "." ++ ext)%string /\
         contains_char "." ext = false /\
         lookup "extension" values = Some (PyStr ext))).
Proof.
  eexists.
  assert (H : init sample.runtime ListDir raw_report = Return _)
    by (vm_compute; reflexivity).
  destruct (X4_extension_is_read_off_the_name sample.runtime raw_report _ H)
    as (s & Hs & Hx).
  exists s. split; [exact H|]. split; [exact Hs|exact Hx].
Defined.

(** ** A listing entry without a name *)

Lemma plain_field_returns (rt : Runtime) (f : ModelField) (raw values : pydict) :
  pre_validator f = None ->
  exists r, field_outcome rt f raw values = Return r.
Proof.
  intros Hp. unfold field_outcome, validate, validate_always. rewrite Hp.
  destruct (lookup (alias f) raw); [eauto|].
  destruct (required f); eauto.
Qed.

Lemma ListDir_rest_is_tame :
  Forall tame
    [ Field_None "size" T_int "size";
      Optional_str "path" None;
      Field_None "web_url" T_str "webUrl";
      Field_None "folder" T_dict "folder";
      Field "created_date_time" T_datetime "createdDateTime";
      Field_None "last_modified_date_time" T_datetime "lastModifiedDateTime";
      Field_None "last_modified_by" T_dict "lastModifiedBy";
      Optional_str "last_modified_by_name" (Some ListDir_set_last_modified_by_name);
      Optional_str "last_modified_by_email" (Some ListDir_set_last_modified_by_email) ].
Proof.
  repeat constructor.
  - exact ListDir_set_last_modified_by_name_raises.
  - exact ListDir_set_last_modified_by_email_raises.
Qed.

Lemma validate_fields_cons (rt : Runtime) (f : ModelField) (fs : list ModelField)
    (raw values : pydict) (errors : list ErrorWrapper) :
  validate_fields rt (f :: fs) raw values errors =
  (r <- field_outcome rt f raw values ;;
   match r with
   | inl v_ => validate_fields rt fs raw (values ++ [(name f, v_)]) errors
   | inr e => validate_fields rt fs raw values (errors ++ [([Loc (alias f)], e)])
   end).
Proof. reflexivity. Qed.

Ltac next_field := cbv beta iota delta [bind]; rewrite validate_fields_cons.

(** X5: [ListDir] and a name that is not accepted.  When the raw object
    has no [name], or a null one, or one that is not text or a number, the
    construction of the record does not end in a validation error: the
    validator of [extension] reads [values["name"]] and raises
    [KeyError].  When the name is accepted, the only exception the
    construction can raise is a [ValidationError]. *)
Theorem X5_ListDir_without_a_name_raises_KeyError (rt : Runtime) (raw : pydict) :
  (forall e, refusal rt ListDir_name raw = Some e ->
             init rt ListDir raw = Raise (KeyError "name")) /\
  (refusal rt ListDir_name raw = None ->
   forall x, init rt ListDir raw = Raise x ->
             exists err errors, x = ValidationError (err :: errors)).
Proof.
  split.
  - intros e He.
    pose proof (refusal_outcome rt ListDir_name raw e eq_refl eq_refl He) as Hname.
    unfold init. cbv [ListDir fields].
    match goal with
    | |- context [validate_fields rt (_ :: _ :: _ :: ?tl)] =>
        generalize tl; intros rest
    end.
    rewrite validate_fields_cons.
    destruct (plain_field_returns rt (Field "id" T_str "id") raw [] eq_refl)
      as [[v|e0] ->]; next_field; fold ListDir_name; rewrite Hname;
      next_field; unfold_field; unfold ListDir_set_extension; simpl;
      destruct (lookup "extension" raw); reflexivity.
  - intros He x H. pose proof (init_raises rt ListDir raw x H) as Hx.
    destruct Hx as [Hun|Hx]; [|exact Hx]. exfalso. unfold init in H.
    assert (Hname : forall vs, exists s,
               field_outcome rt (Field "name" T_str "name") raw vs
               = Return (inl (PyStr s))).
    { intros vs. revert He. unfold refusal, ListDir_name. unfold_field.
      destruct (lookup "name" raw) as [v|]; [|discriminate].
      destruct v; simpl; try discriminate; eauto.
      destruct b; eauto. }
    assert (Hext : forall vs s,
               getitem "name" vs = Return (PyStr s) ->
               exists r,
                 field_outcome rt
                   (Optional_str "extension" (Some ListDir_set_extension))
                   raw vs = Return r).
    { intros vs s Hg. unfold_field. unfold ListDir_set_extension. rewrite Hg.
      simpl.
      destruct (lookup "extension" raw);
        destruct (is_none (get "folder" vs)); simpl; eauto;
        destruct (substring_of "." s); simpl; eauto. }
    assert (Hno : forall y,
               validate_fields rt (fields ListDir) raw [] [] <> Raise y).
    { intros y. cbv [ListDir fields].
      pose proof ListDir_rest_is_tame as Htame. revert Htame.
      match goal with
      | |- Forall tame ?tl -> _ => generalize tl; intros rest Htame
      end.
      rewrite validate_fields_cons.
      destruct (plain_field_returns rt (Field "id" T_str "id") raw [] eq_refl)
        as [[v1|e1] ->]; next_field;
        match goal with
        | |- context [field_outcome rt (Field "name" T_str "name") raw ?vs] =>
            destruct (Hname vs) as [s ->]
        end; next_field;
        match goal with
        | |- context [field_outcome rt (Optional_str "extension" ?vd) raw ?vs] =>
            destruct (Hext vs s) as [[v|e] ->]
        end;
        try (simpl; unfold getitem; simpl; reflexivity);
        cbv beta iota delta [bind];
        apply (validate_fields_tame rt raw _ Htame). }
    destruct (validate_fields rt (fields ListDir) raw [] []) as [[vs errs]|y] eqn:E.
    + simpl in H. destruct errs; [discriminate|].
      injection H as <-. exact Hun.
    + eapply Hno; eauto.
Qed.

Lemma X5_nameless_entry_raises_KeyError :
  refusal sample.runtime ListDir_name raw_nameless = Some MissingError /\
  init sample.runtime ListDir raw_nameless = Raise (KeyError "name").
Proof.
  split; [reflexivity|].
  apply (X5_ListDir_without_a_name_raises_KeyError sample.runtime raw_nameless)
    with (e := MissingError).
  reflexivity.
Defined.
